(** * Task Completion Dashboard (src/app.py): model and properties

  The script turns a Google Sheet link into a CSV export link, reads the
  sheet into a pandas DataFrame, normalizes the header row, derives a
  [status] and an [is_tatkal] column and shows counts over the whole
  sheet and over the Tatkal rows.

  Text is modelled as Rocq [string]s read as sequences of code points
  below 256; on that range Python's [str.lower] works character by
  character and [str.strip] removes the characters [str.isspace]
  accepts.  Python integers are [Z]. *)

From Stdlib Require Import List String Ascii ZArith NArith Bool Lia QArith.
From Stdlib Require Import Numbers.DecimalString.
From Stdlib Require Import Sorting.Permutation.
Import ListNotations.
Close Scope Q_scope.
Open Scope string_scope.

(* ================================================================= *)
(** ** Text: the [str] methods the script calls *)

Module Text.

(** [str.isspace] on one code point below 256. *)
Definition is_space (c : ascii) : bool :=
  let n := N_of_ascii c in
  (((9 <=? n) && (n <=? 13)) || ((28 <=? n) && (n <=? 32))
   || (n =? 133) || (n =? 160))%N.

(** [str.lower] on one code point below 256: A-Z and the accented
    capitals 0xC0-0xDE (0xD7, the multiplication sign, is not a letter). *)
Definition lower_char (c : ascii) : ascii :=
  let n := N_of_ascii c in
  if (((65 <=? n) && (n <=? 90))
      || ((192 <=? n) && (n <=? 222) && negb (n =? 215)))%N
  then ascii_of_N (n + 32) else c.

Fixpoint lower (s : string) : string :=
  match s with
  | EmptyString => EmptyString
  | String c s' => String (lower_char c) (lower s')
  end.

Fixpoint lstrip (s : string) : string :=
  match s with
  | EmptyString => EmptyString
  | String c s' => if is_space c then lstrip s' else s
  end.

Fixpoint rstrip (s : string) : string :=
  match s with
  | EmptyString => EmptyString
  | String c s' =>
      match rstrip s' with
      | EmptyString => if is_space c then EmptyString else String c EmptyString
      | r => String c r
      end
  end.

(** [s.strip()] with no argument. *)
Definition strip (s : string) : string := rstrip (lstrip s).

(** A string that does not begin with white space. *)
Definition headed (s : string) : Prop :=
  match s with
  | EmptyString => True
  | String c _ => is_space c = false
  end.

End Text.

(* ================================================================= *)
(** ** Source resolver: [create_google_sheet_csv_url] *)

Module Resolver.

(** The character class [[a-zA-Z0-9-_]]: three ranges, then the two
    literals [-] and [_]. *)
Definition is_id_char (c : ascii) : bool :=
  let n := N_of_ascii c in
  (((97 <=? n) && (n <=? 122)) || ((65 <=? n) && (n <=? 90))
   || ((48 <=? n) && (n <=? 57)) || (n =? 45) || (n =? 95))%N.

(** The greedy group [([a-zA-Z0-9-_]+)] read from the head of [s]; the
    pattern ends with the group, so the longest run is what it keeps. *)
Fixpoint take_id (s : string) : string :=
  match s with
  | EmptyString => EmptyString
  | String c s' => if is_id_char c then String c (take_id s') else EmptyString
  end.

Fixpoint strip_prefix (p s : string) : option string :=
  match p, s with
  | EmptyString, _ => Some s
  | String a p', String b s' =>
      if Ascii.eqb a b then strip_prefix p' s' else None
  | String _ _, EmptyString => None
  end.

(** The pattern [/d/([a-zA-Z0-9-_]+)] anchored at the head of [s];
    the result is group 1. *)
Definition match_at (s : string) : option string :=
  match strip_prefix "/d/" s with
  | Some r =>
      match take_id r with
      | EmptyString => None
      | id => Some id
      end
  | None => None
  end.

(** [re.search(pattern, url)]: the leftmost position where the pattern
    matches; [None] when there is none. *)
Fixpoint re_search (s : string) : option string :=
  match match_at s with
  | Some id => Some id
  | None =>
      match s with
      | EmptyString => None
      | String _ s' => re_search s'
      end
  end.

Definition export_url (sheet_id : string) : string :=
  "https://docs.google.com/spreadsheets/d/" ++ sheet_id ++ "/export?format=csv".

Definition create_google_sheet_csv_url (url : string) : option string :=
  match re_search url with
  | Some sheet_id => Some (export_url sheet_id)
  | None => None
  end.

(** Reading the pattern as a statement about the link: [url] holds
    [/d/] followed by an identifier character, and [pre] is what comes
    before that [/d/]. *)
Definition segment_at (url pre : string) : Prop :=
  exists c rest, is_id_char c = true /\ url = pre ++ "/d/" ++ String c rest.

Definition has_segment (url : string) : Prop :=
  exists pre, segment_at url pre.

Fixpoint all_id (s : string) : bool :=
  match s with
  | EmptyString => true
  | String c s' => is_id_char c && all_id s'
  end.

Definition starts_with_id (s : string) : bool :=
  match s with
  | EmptyString => false
  | String c _ => is_id_char c
  end.

(** [id] is the identifier of the first [/d/<id>] segment of [url]: the
    longest run of identifier characters after the earliest [/d/] that
    has one. *)
Definition first_id (url id : string) : Prop :=
  exists pre rest,
    url = pre ++ "/d/" ++ id ++ rest
    /\ id <> EmptyString
    /\ all_id id = true
    /\ starts_with_id rest = false
    /\ forall pre', segment_at url pre' -> String.length pre <= String.length pre'.

(** The link hard-coded in the script. *)
Definition sheet_url : string :=
  "https://docs.google.com/spreadsheets/d/1qwfADBf4R2owb9LbANpUiOZ2ZoQ9Tk9IpnPz1KAPpYQ/edit?usp=sharing".

End Resolver.

(* ================================================================= *)
(** ** Header normalization *)

Module Schema.
Import Text.

(** The dictionary handed to [df.rename(columns=...)]. *)
Definition rename_table : list (string * string) :=
  [ ("sr.no.", "sr_no");
    ("d.o.r", "date_of_receipt");
    ("completion date", "completion_date");
    ("action taken", "action_taken");
    ("remarks", "remarks") ].

Fixpoint dict_get (d : list (string * string)) (k : string) : option string :=
  match d with
  | [] => None
  | (k', v) :: d' => if String.eqb k' k then Some v else dict_get d' k
  end.

(** [DataFrame.rename] with a dictionary: a label that is a key is
    replaced, any other label stays. *)
Definition rename (d : list (string * string)) (label : string) : string :=
  match dict_get d label with
  | Some v => v
  | None => label
  end.

(** [df.columns.str.strip().str.lower()]. *)
Definition standardize (labels : list string) : list string :=
  map (fun h => lower (strip h)) labels.

Definition normalize_columns (labels : list string) : list string :=
  map (rename rename_table) (standardize labels).

(** The rename table as the specification words it, for comparison. *)
Definition spec_rename_table : list (string * string) :=
  [ ("sr.no.", "sequence_no");
    ("d.o.r", "date_of_receipt");
    ("completion date", "completion_date");
    ("action taken", "action_taken");
    ("remarks", "remarks") ].

Definition spec_normalize_columns (labels : list string) : list string :=
  map (rename spec_rename_table) (standardize labels).

End Schema.

(* ================================================================= *)
(** ** The DataFrame as [pd.read_csv] hands it over *)

Module Pandas.
Import Text.

(** One entry of the table.  [read_csv] leaves text as [Str], turns an
    empty field into [NaN] and parses a column of integers or booleans.
    Float values other than [NaN] are not represented. *)
Inductive cell : Type :=
| NaN
| Str (s : string)
| Int (z : Z)
| Bool (b : bool).

(** Header row and data rows, in sheet order.  A row shorter than the
    header reads as [NaN] past its end, which is how [read_csv] pads.
    [read_csv] delivers pairwise distinct labels; they can collide once
    they are stripped and lower-cased. *)
Record DataFrame : Type := mkFrame {
  columns : list string;
  rows : list (list cell)
}.

Definition notna (x : cell) : bool :=
  match x with
  | NaN => false
  | _ => true
  end.

(** Python's [str(x)]. *)
Definition py_str (x : cell) : string :=
  match x with
  | NaN => "nan"
  | Str s => s
  | Int z => NilZero.string_of_int (Z.to_int z)
  | Bool true => "True"
  | Bool false => "False"
  end.

Definition is_str (x : cell) : bool :=
  match x with
  | Str _ => true
  | _ => false
  end.

Fixpoint positions (key : string) (labels : list string) (i : nat) : list nat :=
  match labels with
  | [] => []
  | l :: ls =>
      if String.eqb l key then i :: positions key ls (S i)
      else positions key ls (S i)
  end.

Definition column_at (j : nat) (df : DataFrame) : list cell :=
  map (fun r => nth j r NaN) (rows df).

(** What [df[key]] is: nothing (a [KeyError]), one column (a Series), or
    a sub-frame when the label occurs more than once. *)
Inductive selection : Type :=
| NoColumn
| OneColumn (s : list cell)
| ManyColumns.

Definition getitem (df : DataFrame) (key : string) : selection :=
  match positions key (columns df) 0 with
  | [] => NoColumn
  | [j] => OneColumn (column_at j df)
  | _ => ManyColumns
  end.

(** How many columns carry the label. *)
Definition occurrences (key : string) (labels : list string) : nat :=
  List.length (positions key labels 0).

(** [key in df.columns]. *)
Definition has_column (df : DataFrame) (key : string) : bool :=
  existsb (fun l => String.eqb l key) (columns df).

(** The [.str] accessor is only there on a column of dtype object.
    [read_csv] gives that dtype to a column with no rows and to a column
    holding text; a column of numbers, booleans or nothing but missing
    entries (float64) is refused with an [AttributeError]. *)
Definition object_dtype (s : list cell) : bool :=
  match s with
  | [] => true
  | _ => existsb is_str s
  end.

(** [s.str.strip()], [s.str.lower()]: entries that are not text come
    out as [NaN]. *)
Definition str_method (f : string -> string) (s : list cell) : list cell :=
  map (fun x => match x with Str t => Str (f t) | _ => NaN end) s.

(** [s == 'text']: [False] on everything that is not that text. *)
Definition eq_scalar (s : list cell) (v : string) : list bool :=
  map (fun x => match x with Str t => String.eqb t v | _ => false end) s.

(** [s.str.strip().str.lower() == v] read entry by entry. *)
Definition text_is (v : string) (x : cell) : bool :=
  match x with
  | Str t => String.eqb (lower (strip t)) v
  | _ => false
  end.

(** [df.columns.is_unique]. *)
Fixpoint distinct (labels : list string) : bool :=
  match labels with
  | [] => true
  | l :: ls => negb (existsb (fun x => String.eqb x l) ls) && distinct ls
  end.

(** A row as wide as the header: [read_csv] pads a short row with
    [NaN]. *)
Definition fit (width : nat) (row : list cell) : list cell :=
  firstn width (row ++ repeat NaN width).

(** The row side of [df[key] = values] when the header has the label:
    every column of that label takes the value. *)
Fixpoint overwrite (key : string) (v : cell) (labels : list string)
         (row : list cell) : list cell :=
  match labels with
  | [] => []
  | l :: ls =>
      (if String.eqb l key then v else hd NaN row)
        :: overwrite key v ls (tl row)
  end.

(** [df[key] = values]: the columns of that label are overwritten; when
    there is none, a column is added at the end. *)
Definition setitem_labels (key : string) (labels : list string) : list string :=
  if existsb (fun l => String.eqb l key) labels then labels
  else (labels ++ [key])%list.

Definition setitem_row (key : string) (labels : list string) (v : cell)
           (row : list cell) : list cell :=
  if existsb (fun l => String.eqb l key) labels then overwrite key v labels row
  else (fit (List.length labels) row ++ [v])%list.

Definition setitem (df : DataFrame) (key : string) (values : list cell)
  : DataFrame :=
  mkFrame (setitem_labels key (columns df))
          (map (fun '(row, v) => setitem_row key (columns df) v row)
               (combine (rows df) values)).

End Pandas.

(* ================================================================= *)
(** ** The page: what the script draws and how it fails *)

Module Dashboard.
Import Text Schema Pandas.

Inductive exn : Type :=
| KeyError (key : string)
| AttributeError
| ValueError
| ZeroDivisionError.

Inductive metric_label : Type :=
| TotalTasks | CompletedTasks | PendingTasks
| TotalTatkal | CompletedTatkal | PendingTatkal.

(** The [delta] of [st.metric]: none, or a percentage with or without a
    leading minus sign.  The percentage is kept as the exact ratio; the
    two-decimal rendering is not modelled. *)
Inductive delta : Type :=
| NoDelta
| Percent (minus : bool) (ratio : Q).

(** The streamlit calls of the [try] block and of its handler.  A pie
    chart is kept as the two counts [value_counts] finds for Completed and
    Pending; a status without a record has no slice, and the order of the
    slices is not modelled. *)
Inductive element : Type :=
| DataLoaded                      (* st.sidebar.success, line 45 *)
| PriorityNotFound                (* st.error, line 68 *)
| OverallHeader                   (* st.header, line 72 *)
| Metric (label : metric_label) (value : Z) (d : delta)
| Rule                            (* st.markdown("---") *)
| TatkalHeader                    (* st.header, line 88 *)
| NoTatkalInfo                    (* st.info, line 104 *)
| VisualizationsHeader            (* st.header, line 109 *)
| StatusSubheader                 (* st.subheader, line 113 *)
| StatusPie (completed pending : Z)       (* st.plotly_chart, line 124 *)
| TatkalSubheader                 (* st.subheader, lines 128 and 141 *)
| TatkalPie (completed pending : Z)       (* st.plotly_chart, line 139 *)
| NoTatkalToVisualize             (* st.info, line 142 *)
| RawDataHeader                   (* st.header, line 146 *)
| RawData (header : list string) (table : list (list cell))
                                  (* st.dataframe, line 147 *)
| InvalidUrl                      (* st.sidebar.error, line 150 *)
| ProcessingFailed                (* st.sidebar.error, line 153 *)
| ErrorReport (e : exn).          (* st.error, line 154 *)

Inductive outcome (A : Type) : Type :=
| Return (a : A)
| Raise (e : exn).
Arguments Return {A} a.
Arguments Raise {A} e.

(** A computation draws on the page and returns or raises. *)
Definition M (A : Type) : Type := list element -> outcome A * list element.

Definition ret {A} (a : A) : M A := fun page => (Return a, page).

Definition raise {A} (e : exn) : M A := fun page => (Raise e, page).

Definition bind {A B} (m : M A) (k : A -> M B) : M B :=
  fun page =>
    match m page with
    | (Return a, page') => k a page'
    | (Raise e, page') => (Raise e, page')
    end.

Definition draw (e : element) : M unit := fun page => (Return tt, (page ++ [e])%list).

Definition lift {A} (o : outcome A) : M A := fun page => (o, page).

(** [try: body except Exception as e: handler e]. *)
Definition try_except (body : M unit) (handler : exn -> M unit) : M unit :=
  fun page =>
    match body page with
    | (Return tt, page') => (Return tt, page')
    | (Raise e, page') => handler e page'
    end.

Declare Scope page_scope.
Delimit Scope page_scope with page.
Notation "x <- m ;; k" := (bind m (fun x => k))
  (at level 61, m at next level, right associativity) : page_scope.
Notation "m ;; k" := (bind m (fun _ => k))
  (at level 61, right associativity) : page_scope.

Local Open Scope page_scope.

(** A row of the frame once [df['status']] and [df['is_tatkal']] are
    assigned: [cells] is the row as the frame then has it, the two
    assigned columns included; [status] and [is_tatkal] are the values the
    two assignments gave it. *)
Record Row : Type := mkRow {
  cells : list cell;
  status : string;
  is_tatkal : bool
}.

Record Dataset : Type := mkDataset {
  labels : list string;
  records : list Row
}.

(** [lambda x: 'Completed' if pd.notna(x) and str(x).strip() != ''
    else 'Pending'] (line 61). *)
Definition status_of (x : cell) : string :=
  if notna x && negb (String.eqb (strip (py_str x)) "")
  then "Completed" else "Pending".

(** [df['remarks'].apply(...)].  With the label missing the lookup
    raises [KeyError]; with the label repeated [apply] hands the lambda
    whole columns and the [and] on a Series raises [ValueError]. *)
Definition classify_status (df : DataFrame) : outcome (list string) :=
  match getitem df "remarks" with
  | NoColumn => Raise (KeyError "remarks")
  | OneColumn s => Return (map status_of s)
  | ManyColumns => Raise ValueError
  end.

(** Lines 65-69.  A repeated [priority] label selects a sub-frame,
    which has no [.str]. *)
Definition classify_urgency (df : DataFrame) : M (list bool) :=
  if has_column df "priority" then
    match getitem df "priority" with
    | OneColumn s =>
        if object_dtype s
        then ret (eq_scalar (str_method lower (str_method strip s)) "tatkal")
        else raise AttributeError
    | _ => raise AttributeError
    end
  else
    draw PriorityNotFound ;;
    ret (repeat false (List.length (rows df))).

(** The rows of the frame, each with the two values assigned to it. *)
Definition with_assigned (df : DataFrame) (statuses : list string)
           (flags : list bool) : list Row :=
  map (fun '(r, (s, f)) => mkRow r s f)
      (combine (rows df) (combine statuses flags)).

(** Lines 49-69: normalize the header, assign [df['status']], then
    assign [df['is_tatkal']]. *)
Definition classify (fetched : DataFrame) : M Dataset :=
  let df := mkFrame (normalize_columns (columns fetched)) (rows fetched) in
  statuses <- lift (classify_status df) ;;
  let df1 := setitem df "status" (map Str statuses) in
  flags <- classify_urgency df1 ;;
  let df2 := setitem df1 "is_tatkal" (map Bool flags) in
  ret (mkDataset (columns df2) (with_assigned df2 statuses flags)).

(** [len(df)] and [df.shape[0]]. *)
Definition len {A} (l : list A) : Z := Z.of_nat (List.length l).

(** [df[df['status'] == 'Completed']]. *)
Definition completed_rows (df : list Row) : list Row :=
  filter (fun r => String.eqb (status r) "Completed") df.

(** [(a / b) * 100] on Python integers: the division raises on zero. *)
Definition percent (a b : Z) : M Q :=
  if (b =? 0)%Z then raise ZeroDivisionError
  else ret ((inject_Z a / inject_Z b) * inject_Z 100)%Q.

Record Overall : Type := mkOverall {
  total_tasks : Z;
  completed_tasks : Z;
  pending_tasks : Z
}.

Record Tatkal : Type := mkTatkal {
  tatkal_df : list Row;
  total_tatkal_tasks : Z;
  (** [completed_tatkal_tasks] and [pending_tatkal_tasks], which only
      exist on the branch [total_tatkal_tasks > 0]. *)
  tatkal_counts : option (Z * Z)
}.

(** Lines 72-85. *)
Definition overall_summary (df : list Row) : M Overall :=
  draw OverallHeader ;;
  let total := len df in
  let completed := len (completed_rows df) in
  let pending := (total - completed)%Z in
  draw (Metric TotalTasks total NoDelta) ;;
  p <- percent completed total ;;
  draw (Metric CompletedTasks completed (Percent false p)) ;;
  q <- percent pending total ;;
  draw (Metric PendingTasks pending (Percent true q)) ;;
  draw Rule ;;
  ret (mkOverall total completed pending).

(** Lines 88-106. *)
Definition tatkal_summary (df : list Row) : M Tatkal :=
  draw TatkalHeader ;;
  let tatkal := filter is_tatkal df in
  let total := len tatkal in
  counts <-
    (if (total >? 0)%Z then
       let completed := len (completed_rows tatkal) in
       let pending := (total - completed)%Z in
       draw (Metric TotalTatkal total NoDelta) ;;
       p <- percent completed total ;;
       draw (Metric CompletedTatkal completed (Percent false p)) ;;
       q <- percent pending total ;;
       draw (Metric PendingTatkal pending (Percent true q)) ;;
       ret (Some (completed, pending))
     else
       draw NoTatkalInfo ;;
       ret None) ;;
  draw Rule ;;
  ret (mkTatkal tatkal total counts).

Record Summary : Type := mkSummary {
  dataset : Dataset;
  overall : Overall;
  tatkal : Tatkal
}.

(** [df[key]] is a column only when the label is there once; with the
    label repeated it is a sub-frame, and indexing the frame by it
    ([df[df['status'] == 'Completed']], line 74; [df[df['is_tatkal']]],
    line 89) raises [ValueError]. *)
Definition one_column (ds : Dataset) (key : string) : bool :=
  (occurrences key (labels ds) <=? 1)%nat.

(** Lines 72-85 on the classified frame. *)
Definition overall_section (ds : Dataset) : M Overall :=
  if one_column ds "status" then overall_summary (records ds)
  else draw OverallHeader ;; raise ValueError.

(** Lines 88-106 on the classified frame. *)
Definition tatkal_section (ds : Dataset) : M Tatkal :=
  if one_column ds "is_tatkal" then tatkal_summary (records ds)
  else draw TatkalHeader ;; raise ValueError.

(** Lines 45-106 of the [try] block, for the frame [pd.read_csv]
    returned: classification and the two summaries. *)
Definition process (fetched : DataFrame) : M Summary :=
  draw DataLoaded ;;
  ds <- classify fetched ;;
  o <- overall_section ds ;;
  t <- tatkal_section ds ;;
  ret (mkSummary ds o t).

(** [df[df['status'] == 'Pending']], which the script never builds: it
    takes [pending_tasks] by subtraction. *)
Definition pending_rows (df : list Row) : list Row :=
  filter (fun r => String.eqb (status r) "Pending") df.

(** Lines 108-147 of the [try] block: the two charts and the raw table.
    [st.dataframe] hands the frame to Arrow, which refuses a frame whose
    labels are not pairwise distinct with a [ValueError]. *)
Definition display (s : Summary) : M unit :=
  let df := records (dataset s) in
  draw VisualizationsHeader ;;
  draw StatusSubheader ;;
  draw (StatusPie (len (completed_rows df)) (len (pending_rows df))) ;;
  (if (total_tatkal_tasks (tatkal s) >? 0)%Z then
     draw TatkalSubheader ;;
     draw (TatkalPie (len (completed_rows (tatkal_df (tatkal s))))
                     (len (pending_rows (tatkal_df (tatkal s)))))
   else
     draw TatkalSubheader ;;
     draw NoTatkalToVisualize) ;;
  draw Rule ;;
  draw RawDataHeader ;;
  if distinct (labels (dataset s))
  then draw (RawData (labels (dataset s)) (map cells df))
  else raise ValueError.

(** Lines 45-147: the whole body of the [try] block after the fetch. *)
Definition try_block (fetched : DataFrame) : M unit :=
  s <- process fetched ;;
  display s.

(** Lines 38-154, as the page they leave behind. *)
Definition main (fetched : DataFrame) : list element :=
  snd (match Resolver.create_google_sheet_csv_url Resolver.sheet_url with
       | Some _ =>
           try_except (try_block fetched)
             (fun e => draw ProcessingFailed ;; draw (ErrorReport e))
       | None => draw InvalidUrl
       end []).

(** The two data rows of the specification's scenarios, as [read_csv]
    types them. *)
Definition sample : DataFrame :=
  mkFrame
    ["Sr.No."; "D.O.R"; "Completion Date"; "Action Taken"; "Remarks"; "Priority"]
    [ [Int 1; Str "2024-01-01"; NaN; Str "Called client"; NaN; Str "Tatkal"];
      [Int 2; Str "2024-01-01"; Str "2024-01-05"; Str "Closed";
       Str "Resolved issue"; Str "Normal"] ].

(** A sheet with a header and no data row. *)
Definition empty_sheet : DataFrame := mkFrame ["Remarks"; "Priority"] [].

(** A sheet whose Priority column is there but was left blank:
    [read_csv] types that column float64. *)
Definition blank_priority_sheet : DataFrame :=
  mkFrame ["Remarks"; "Priority"] [[Str "done"; NaN]].

(** A sheet with a blank priority entry next to a filled one. *)
Definition partly_prioritized_sheet : DataFrame :=
  mkFrame ["remarks"; "priority"] [[Str "done"; NaN]; [NaN; Str " TATKAL "]].

(** Sheets without a Priority column, with and without Remarks. *)
Definition unprioritized_sheet : DataFrame :=
  mkFrame ["Sr.No."; "Remarks "] [[Int 1; Str "done"]; [Int 2; NaN]].

Definition names_only_sheet : DataFrame := mkFrame ["Name"] [[Str "x"]].

End Dashboard.

(* ================================================================= *)
(** ** Reading aids for the run as a whole *)

Module Outcome.
Import Text Resolver Schema Pandas Dashboard.

(** A text made of white space only (the empty text included). *)
Fixpoint all_space (s : string) : bool :=
  match s with
  | EmptyString => true
  | String c s' => is_space c && all_space s'
  end.

(** Either of two characters, and the word tatkal spelled in any
    letter case. *)
Definition either (lo up c : ascii) : bool :=
  Ascii.eqb c lo || Ascii.eqb c up.

Definition spells_tatkal (s : string) : bool :=
  match s with
  | String c1 (String c2 (String c3 (String c4 (String c5
      (String c6 EmptyString))))) =>
      either "t" "T" c1 && either "a" "A" c2 && either "t" "T" c3
      && either "k" "K" c4 && either "a" "A" c5 && either "l" "L" c6
  | _ => false
  end.

(** The word tatkal in any letter case with white space, if any, before
    and after it. *)
Definition padded_tatkal (t : string) : Prop :=
  exists a core b,
    t = a ++ core ++ b
    /\ all_space a = true /\ all_space b = true
    /\ spells_tatkal core = true.

(** The two derived columns seen from one row: [jr] is where [remarks]
    sits, [jp] where [priority] sits when the header has it. *)
Definition flag_of (jp : option nat) (row : list cell) : bool :=
  match jp with
  | Some j => text_is "tatkal" (nth j row NaN)
  | None => false
  end.

(** A fetched row after the two assignments, under the normalized
    [header]. *)
Definition classify_row (header : list string) (jr : nat) (jp : option nat)
           (row : list cell) : Row :=
  let s := status_of (nth jr row NaN) in
  let f := flag_of jp row in
  mkRow (setitem_row "is_tatkal" (setitem_labels "status" header) (Bool f)
                     (setitem_row "status" header (Str s) row))
        s f.

(** The header after the two assignments. *)
Definition assigned_labels (header : list string) : list string :=
  setitem_labels "is_tatkal" (setitem_labels "status" header).

(** Where the two columns sit in a header that [classify] accepts. *)
Definition remarks_at (header : list string) : nat :=
  hd 0 (positions "remarks" header 0).

Definition priority_at (header : list string) : option nat :=
  match positions "priority" header 0 with
  | [j] => Some j
  | _ => None
  end.

(** A computation that only adds to the page, adds the same elements and
    ends the same way whatever the page held before, and adds nothing but
    elements in [P]. *)
Definition draws {A} (P : element -> Prop) (m : M A) : Prop :=
  Forall P (snd (m []))
  /\ forall page, m page = (fst (m []), (page ++ snd (m []))%list).

(** What the two summaries may draw: headers, rules, the notice of line
    104 and metrics, a Tatkal total only when it is positive. *)
Definition summary_element (e : element) : Prop :=
  match e with
  | OverallHeader | Rule | TatkalHeader | NoTatkalInfo => True
  | Metric TotalTatkal v _ => (0 < v)%Z
  | Metric _ _ _ => True
  | _ => False
  end.

(** What lines 108-147 may draw. *)
Definition display_element (e : element) : Prop :=
  match e with
  | VisualizationsHeader | StatusSubheader | StatusPie _ _ | TatkalSubheader
  | TatkalPie _ _ | NoTatkalToVisualize | Rule | RawDataHeader
  | RawData _ _ => True
  | _ => False
  end.

(** What the [try] block may draw before the handler steps in. *)
Definition body_element (e : element) : Prop :=
  e = DataLoaded \/ e = PriorityNotFound \/ summary_element e
  \/ display_element e.

(** The elements only the [else] branch and the handler draw (lines
    150-154). *)
Definition handler_element (e : element) : Prop :=
  e = InvalidUrl \/ e = ProcessingFailed \/ exists x, e = ErrorReport x.

(** Lines 38-154 with the link as a parameter, [fetched] being what
    [pd.read_csv] returns for the export link: an empty link skips the
    whole block. *)
Definition run (url : string) (fetched : DataFrame) : list element :=
  if String.eqb url "" then []
  else
    snd (match create_google_sheet_csv_url url with
         | Some _ =>
             try_except (try_block fetched)
               (fun e => bind (draw ProcessingFailed)
                              (fun _ => draw (ErrorReport e)))
         | None => draw InvalidUrl
         end []).

(** [sample] with its two rows swapped. *)
Definition sample_swapped : DataFrame :=
  mkFrame (columns sample)
    [ [Int 2; Str "2024-01-01"; Str "2024-01-05"; Str "Closed";
       Str "Resolved issue"; Str "Normal"];
      [Int 1; Str "2024-01-01"; NaN; Str "Called client"; NaN; Str "Tatkal"] ].

(** Two headers that read the same once normalized. *)
Definition twice_remarks_sheet : DataFrame :=
  mkFrame ["Remarks"; " remarks"; "Priority"]
          [[Str "done"; Str "seen"; Str "Tatkal"]].

(** A Priority column of numbers. *)
Definition numeric_priority_sheet : DataFrame :=
  mkFrame ["Remarks"; "Priority"] [[Str "done"; Int 1]; [NaN; Int 2]].

(** Remarks and priorities with padding, blanks and a number. *)
Definition padded_sheet : DataFrame :=
  mkFrame ["Remarks"; "Priority"]
          [ [Str "   "; Str " Tatkal "];
            [Str " ok "; Str "TATKAL"];
            [NaN; Str "tatkal now"];
            [Str "0"; NaN] ].

(** [padded_sheet] after [classify]. *)
Definition classified_padded : Dataset :=
  mkDataset
    ["remarks"; "priority"; "status"; "is_tatkal"]
    [ mkRow [Str "   "; Str " Tatkal "; Str "Pending"; Bool true]
            "Pending" true;
      mkRow [Str " ok "; Str "TATKAL"; Str "Completed"; Bool true]
            "Completed" true;
      mkRow [NaN; Str "tatkal now"; Str "Pending"; Bool false]
            "Pending" false;
      mkRow [Str "0"; NaN; Str "Completed"; Bool false]
            "Completed" false ].



(** Two headers that normalize to [status], and two that normalize to
    [name]. *)
Definition twice_status_sheet : DataFrame :=
  mkFrame ["Status"; "STATUS"; "Remarks"; "Priority"]
          [[Str "a"; Str "b"; Str "done"; Str "Tatkal"]].

Definition twice_name_sheet : DataFrame :=
  mkFrame ["Name"; " name"; "Remarks"] [[Str "a"; Str "b"; Str "done"]].

End Outcome.

(* ================================================================= *)
(** ** Properties of the text operations *)

Import Text Resolver Schema Pandas Dashboard Outcome.

Section TextFacts.

Ltac by_code_point c :=
  destruct c as [[] [] [] [] [] [] [] []]; reflexivity.

Lemma is_space_lower_char (c : ascii) :
  is_space (lower_char c) = is_space c.
Proof. by_code_point c. Qed.

Lemma lower_char_idem (c : ascii) :
  lower_char (lower_char c) = lower_char c.
Proof. by_code_point c. Qed.

Lemma lower_idem (s : string) : lower (lower s) = lower s.
Proof.
  induction s as [|c s IH]; simpl; [reflexivity|].
  now rewrite lower_char_idem, IH.
Qed.

Lemma lower_lstrip (s : string) : lower (lstrip s) = lstrip (lower s).
Proof.
  induction s as [|c s IH]; simpl; [reflexivity|].
  rewrite is_space_lower_char.
  destruct (is_space c); [exact IH | reflexivity].
Qed.

Lemma lower_rstrip (s : string) : lower (rstrip s) = rstrip (lower s).
Proof.
  induction s as [|c s IH]; simpl; [reflexivity|].
  rewrite <- IH, is_space_lower_char.
  destruct (rstrip s); simpl; [destruct (is_space c)|]; reflexivity.
Qed.

Lemma lower_strip (s : string) : lower (strip s) = strip (lower s).
Proof. unfold strip. now rewrite lower_rstrip, lower_lstrip. Qed.

Lemma lstrip_headed (s : string) : headed (lstrip s).
Proof.
  induction s as [|c s IH]; simpl; [exact I|].
  destruct (is_space c) eqn:E; [exact IH | exact E].
Qed.

Lemma headed_lstrip (s : string) : headed s -> lstrip s = s.
Proof. destruct s as [|c s]; simpl; [reflexivity|]. now intros ->. Qed.

Lemma rstrip_headed (s : string) : headed s -> headed (rstrip s).
Proof.
  destruct s as [|c s]; simpl; [trivial|]. intros E.
  destruct (rstrip s); [rewrite E|]; exact E.
Qed.

Lemma rstrip_idem (s : string) : rstrip (rstrip s) = rstrip s.
Proof.
  induction s as [|c s IH]; simpl; [reflexivity|].
  destruct (rstrip s) as [|d r] eqn:E.
  - destruct (is_space c) eqn:Ec; simpl; [reflexivity | now rewrite Ec].
  - change (rstrip (String c (String d r)) = String c (String d r)).
    simpl. simpl in IH. now destruct (rstrip r); rewrite ?IH; inversion IH.
Qed.

Lemma strip_idem (s : string) : strip (strip s) = strip s.
Proof.
  unfold strip.
  rewrite (headed_lstrip (rstrip (lstrip s))).
  - apply rstrip_idem.
  - apply rstrip_headed, lstrip_headed.
Qed.

(** Stripping and lower-casing settle after one pass. *)
Lemma standardize_settled (h : string) :
  lower (strip (lower (strip h))) = lower (strip h).
Proof. now rewrite <- lower_strip, strip_idem, lower_idem. Qed.

Lemma all_space_lstrip (s : string) : all_space (lstrip s) = all_space s.
Proof.
  induction s as [|c s IH]; simpl; [reflexivity|].
  destruct (is_space c) eqn:E; simpl; [exact IH | now rewrite E].
Qed.

Lemma rstrip_blank (s : string) : rstrip s = "" <-> all_space s = true.
Proof.
  induction s as [|c s IH]; simpl; [tauto|].
  destruct (rstrip s) as [|d r].
  - destruct (is_space c); simpl.
    + rewrite <- IH. tauto.
    + split; discriminate.
  - split; [discriminate|]. intros H. apply andb_prop in H as [_ H].
    apply IH in H. discriminate.
Qed.

Lemma strip_blank (s : string) : strip s = "" <-> all_space s = true.
Proof. unfold strip. now rewrite rstrip_blank, all_space_lstrip. Qed.

Lemma uint_text_head (d : Decimal.uint) :
  exists c s, NilZero.string_of_uint d = String c s /\ is_space c = false.
Proof. destruct d; simpl; eexists _, _; split; reflexivity. Qed.

Lemma number_text_not_blank (z : Z) : all_space (py_str (Int z)) = false.
Proof.
  unfold py_str, NilZero.string_of_int.
  destruct (Z.to_int z) as [d|d].
  - destruct (uint_text_head d) as (c & s & -> & Hc). simpl. now rewrite Hc.
  - reflexivity.
Qed.

Lemma lstrip_blank (s : string) : all_space s = true -> lstrip s = "".
Proof.
  induction s as [|c s IH]; simpl; [reflexivity|].
  intros H. apply andb_prop in H as [-> H]. auto.
Qed.

Lemma lstrip_padded (a s : string) :
  all_space a = true -> lstrip (a ++ s) = lstrip s.
Proof.
  induction a as [|c a IH]; simpl; [reflexivity|].
  intros H. apply andb_prop in H as [-> H]. auto.
Qed.

Lemma rstrip_padded (s b : string) :
  all_space b = true -> rstrip (s ++ b) = rstrip s.
Proof.
  intros Hb. induction s as [|c s IH]; simpl.
  - now apply rstrip_blank.
  - now rewrite IH.
Qed.

Lemma strip_padded (a s b : string) :
  all_space a = true -> all_space b = true -> strip (a ++ s ++ b) = strip s.
Proof.
  intros Ha Hb. unfold strip. rewrite (lstrip_padded a _ Ha). clear a Ha.
  induction s as [|c s IH]; simpl.
  - now rewrite (lstrip_blank b Hb).
  - destruct (is_space c); [exact IH|].
    exact (rstrip_padded (String c s) b Hb).
Qed.

Lemma lstrip_split (s : string) :
  exists a, s = a ++ lstrip s /\ all_space a = true.
Proof.
  induction s as [|c s (a & E & Ha)]; simpl.
  - now exists "".
  - destruct (is_space c) eqn:Ec.
    + exists (String c a). simpl. now rewrite Ec, Ha, <- E.
    + now exists "".
Qed.

Lemma rstrip_split (s : string) :
  exists b, s = rstrip s ++ b /\ all_space b = true.
Proof.
  induction s as [|c s (b & E & Hb)]; simpl.
  - now exists "".
  - destruct (rstrip s) as [|d r] eqn:R.
    + simpl in E. subst b. destruct (is_space c) eqn:Ec.
      * exists (String c s). simpl. now rewrite Ec, Hb.
      * now exists s.
    + exists b. simpl in *. split; [congruence | exact Hb].
Qed.

Lemma strip_split (s : string) :
  exists a b, s = a ++ strip s ++ b /\ all_space a = true /\ all_space b = true.
Proof.
  destruct (lstrip_split s) as (a & Ea & Ha).
  destruct (rstrip_split (lstrip s)) as (b & Eb & Hb).
  exists a, b. unfold strip. now rewrite <- Eb.
Qed.

Ltac by_code_point_iff c :=
  destruct c as [[] [] [] [] [] [] [] []]; vm_compute;
  split; intros H; solve [reflexivity | discriminate H].

Lemma lower_char_t (c : ascii) :
  lower_char c = "t"%char <-> either "t" "T" c = true.
Proof. by_code_point_iff c. Qed.

Lemma lower_char_a (c : ascii) :
  lower_char c = "a"%char <-> either "a" "A" c = true.
Proof. by_code_point_iff c. Qed.

Lemma lower_char_k (c : ascii) :
  lower_char c = "k"%char <-> either "k" "K" c = true.
Proof. by_code_point_iff c. Qed.

Lemma lower_char_l (c : ascii) :
  lower_char c = "l"%char <-> either "l" "L" c = true.
Proof. by_code_point_iff c. Qed.

Lemma lower_spells_tatkal (s : string) :
  lower s = "tatkal" <-> spells_tatkal s = true.
Proof.
  destruct s as [|c1 [|c2 [|c3 [|c4 [|c5 [|c6 [|c7 r]]]]]]];
    cbn [lower spells_tatkal];
    try (split; intros H; [inversion H | discriminate H]).
  rewrite !andb_true_iff.
  rewrite <- (lower_char_t c1), <- (lower_char_a c2), <- (lower_char_t c3),
    <- (lower_char_k c4), <- (lower_char_a c5), <- (lower_char_l c6).
  split.
  - intros [= H1 H2 H3 H4 H5 H6]. tauto.
  - intros (((((H1 & H2) & H3) & H4) & H5) & H6). congruence.
Qed.

Lemma either_cases (lo up c : ascii) :
  either lo up c = true -> c = lo \/ c = up.
Proof.
  unfold either. intros H. apply orb_prop in H as [H|H];
    apply Ascii.eqb_eq in H; auto.
Qed.

Lemma spells_tatkal_stripped (s : string) :
  spells_tatkal s = true -> strip s = s.
Proof.
  destruct s as [|c1 [|c2 [|c3 [|c4 [|c5 [|c6 [|c7 r]]]]]]];
    cbn [spells_tatkal]; try discriminate.
  rewrite !andb_true_iff.
  intros (((((H1 & H2) & H3) & H4) & H5) & H6).
  apply either_cases in H1, H2, H3, H4, H5, H6.
  destruct H1, H2, H3, H4, H5, H6; subst; reflexivity.
Qed.

(** Text that reads tatkal once stripped and lower-cased is the word in
    any letter case between white space, and nothing else is. *)
Lemma tatkal_text (t : string) :
  lower (strip t) = "tatkal" <-> padded_tatkal t.
Proof.
  split.
  - intros H. destruct (strip_split t) as (a & b & E & Ha & Hb).
    exists a, (strip t), b. repeat split; auto.
    now apply lower_spells_tatkal.
  - intros (a & core & b & -> & Ha & Hb & Hs).
    rewrite strip_padded by assumption.
    rewrite (spells_tatkal_stripped core Hs).
    now apply lower_spells_tatkal.
Qed.

Lemma strip_eqb_blank (t : string) : String.eqb (strip t) "" = all_space t.
Proof.
  destruct (String.eqb_spec (strip t) "") as [E|E].
  - symmetry. now apply strip_blank.
  - destruct (all_space t) eqn:A; [|reflexivity].
    exfalso. apply E. now apply strip_blank.
Qed.

End TextFacts.

(* ================================================================= *)
(** ** Properties of the source resolver *)

Section ResolverFacts.

Lemma take_id_split (s : string) :
  exists rest,
    s = take_id s ++ rest /\ all_id (take_id s) = true
    /\ starts_with_id rest = false.
Proof.
  induction s as [|c s (rest & Hs & Hall & Hrest)]; simpl.
  - exists EmptyString. auto.
  - destruct (is_id_char c) eqn:E.
    + exists rest. simpl. rewrite E, Hall, <- Hs. auto.
    + exists (String c s). simpl. auto.
Qed.

Lemma strip_prefix_Some (p s r : string) :
  strip_prefix p s = Some r -> s = p ++ r.
Proof.
  revert s. induction p as [|a p IH]; intros [|b s]; simpl; try congruence.
  destruct (Ascii.eqb_spec a b) as [->|]; [|discriminate].
  intros H. now rewrite (IH _ H).
Qed.

Lemma strip_prefix_app (p r : string) : strip_prefix p (p ++ r) = Some r.
Proof.
  induction p as [|a p IH]; simpl; [reflexivity|].
  now rewrite Ascii.eqb_refl.
Qed.

Lemma match_at_Some (s id : string) :
  match_at s = Some id ->
  exists rest,
    s = "/d/" ++ id ++ rest /\ id <> EmptyString /\ all_id id = true
    /\ starts_with_id rest = false.
Proof.
  unfold match_at. destruct (strip_prefix "/d/" s) as [r|] eqn:P; [|discriminate].
  apply strip_prefix_Some in P.
  destruct (take_id_split r) as (rest & Hr & Hall & Hrest).
  destruct (take_id r) as [|c t] eqn:T; [discriminate|].
  intros [= <-]. exists rest. rewrite P, Hr at 1. repeat split; auto.
  discriminate.
Qed.

Lemma match_at_None (s : string) :
  match_at s = None -> ~ segment_at s EmptyString.
Proof.
  unfold match_at. intros H (c & rest & Hc & ->).
  change (EmptyString ++ "/d/" ++ String c rest)
    with ("/d/" ++ String c rest) in H.
  rewrite strip_prefix_app in H. simpl in H. rewrite Hc in H. discriminate.
Qed.

Lemma segment_at_tail (a : ascii) (s pre : string) :
  segment_at (String a s) pre ->
  pre = EmptyString \/ exists p, pre = String a p /\ segment_at s p.
Proof.
  intros (c & rest & Hc & E). destruct pre as [|b p]; [now left|right].
  simpl in E. injection E as -> E. exists p. split; [reflexivity|].
  now exists c, rest.
Qed.

Lemma re_search_spec (url : string) :
  match re_search url with
  | Some id => first_id url id
  | None => ~ has_segment url
  end.
Proof.
  induction url as [|a s IH].
  - simpl. intros ([|b p] & c & rest & _ & E); discriminate.
  - cbn [re_search]. destruct (match_at (String a s)) as [id|] eqn:M.
    + destruct (match_at_Some _ _ M) as (rest & E & Hne & Hall & Hrest).
      exists EmptyString, rest. repeat split; auto. simpl. lia.
    + pose proof (match_at_None _ M) as Hno.
      destruct (re_search s) as [id|].
      * destruct IH as (pre & rest & E & Hne & Hall & Hrest & Hmin).
        exists (String a pre), rest. repeat split; auto.
        -- rewrite E at 1. reflexivity.
        -- intros pre' Hseg.
           destruct (segment_at_tail _ _ _ Hseg) as [->|(p & -> & Hp)];
             [contradiction|].
           simpl. apply Hmin in Hp. lia.
      * intros (pre & Hseg).
        destruct (segment_at_tail _ _ _ Hseg) as [->|(p & -> & Hp)];
          [contradiction|].
        apply IH. now exists p.
Qed.

Lemma first_id_segment (url id : string) :
  first_id url id -> has_segment url.
Proof.
  intros (pre & rest & E & Hne & Hall & _).
  destruct id as [|c t]; [congruence|].
  exists pre, c, (t ++ rest). split; [|exact E].
  simpl in Hall. now apply andb_prop in Hall.
Qed.

Lemma app_same_length (p q x y : string) :
  p ++ x = q ++ y -> String.length p = String.length q -> p = q /\ x = y.
Proof.
  revert q. induction p as [|a p IH]; intros [|b q]; simpl; try discriminate.
  - auto.
  - intros [= -> E] [= L]. destruct (IH _ E L) as [-> ->]. auto.
Qed.

Lemma id_run_unique (id id' rest rest' : string) :
  all_id id = true -> all_id id' = true ->
  starts_with_id rest = false -> starts_with_id rest' = false ->
  id ++ rest = id' ++ rest' -> id = id'.
Proof.
  revert id'. induction id as [|c t IH]; intros [|c' t']; simpl.
  - reflexivity.
  - intros _ H' Hr _ ->. simpl in Hr.
    apply andb_prop in H' as [H' _]. congruence.
  - intros H _ _ Hr' <-. simpl in Hr'.
    apply andb_prop in H as [H _]. congruence.
  - intros H H' Hr Hr' [= -> E].
    apply andb_prop in H as [_ H]. apply andb_prop in H' as [_ H'].
    f_equal. eauto.
Qed.

Lemma first_id_unique (url id id' : string) :
  first_id url id -> first_id url id' -> id = id'.
Proof.
  intros (pre & rest & E & Hne & Hall & Hrest & Hmin)
         (pre' & rest' & E' & Hne' & Hall' & Hrest' & Hmin').
  assert (Hseg : segment_at url pre).
  { destruct id as [|c t]; [congruence|]. exists c, (t ++ rest).
    simpl in Hall. apply andb_prop in Hall as [Hc _]. auto. }
  assert (Hseg' : segment_at url pre').
  { destruct id' as [|c t]; [congruence|]. exists c, (t ++ rest').
    simpl in Hall'. apply andb_prop in Hall' as [Hc _]. auto. }
  apply Hmin in Hseg'. apply Hmin' in Hseg.
  rewrite E in E'.
  destruct (app_same_length _ _ _ _ E') as [_ T]; [lia|].
  injection T as T.
  exact (id_run_unique _ _ _ _ Hall Hall' Hrest Hrest' T).
Qed.

(** C7.  For every link: the resolver returns the export link built
    around the identifier of the first [/d/<id>] segment (the longest
    run of letters, digits, hyphens and underscores after the earliest
    [/d/] followed by one; what comes after the run is ignored), such
    an identifier exists as soon as the link holds a segment, and for
    a link that holds none the resolver returns [None]. *)
Theorem resolve_first_id (url : string) :
  (forall id,
     first_id url id ->
     create_google_sheet_csv_url url
     = Some ("https://docs.google.com/spreadsheets/d/" ++ id
             ++ "/export?format=csv"))
  /\ (has_segment url -> exists id, first_id url id)
  /\ (~ has_segment url -> create_google_sheet_csv_url url = None).
Proof.
  pose proof (re_search_spec url) as H.
  unfold create_google_sheet_csv_url.
  destruct (re_search url) as [id0|]; repeat split.
  - intros id Hid. now rewrite (first_id_unique _ _ _ Hid H).
  - intros _. now exists id0.
  - intros Hno. exfalso. eauto using first_id_segment.
  - intros id Hid. exfalso. eauto using first_id_segment.
  - intros Hseg. contradiction.
Qed.

Lemma resolve_first_id_witness :
  first_id "https://example.com/spreadsheets/d/ABC123xyz/edit" "ABC123xyz"
  /\ create_google_sheet_csv_url "https://example.com/spreadsheets/d/ABC123xyz/edit"
     = Some "https://docs.google.com/spreadsheets/d/ABC123xyz/export?format=csv".
Proof.
  pose proof (re_search_spec "https://example.com/spreadsheets/d/ABC123xyz/edit")
    as H.
  vm_compute in H. split; [exact H|].
  exact (proj1 (resolve_first_id _) "ABC123xyz" H).
Defined.

End ResolverFacts.

(* ================================================================= *)
(** ** Properties of the header normalization *)

Section SchemaFacts.

Lemma normalize_columns_nth (hs : list string) (i : nat) :
  nth_error (normalize_columns hs) i
  = option_map (fun h => rename rename_table (lower (strip h))) (nth_error hs i).
Proof.
  unfold normalize_columns, standardize.
  now rewrite map_map, nth_error_map.
Qed.

(** C2, as the script has it.  Every header is stripped and lower-cased
    and then sent through the table sr.no. to sr_no, d.o.r to
    date_of_receipt, completion date to completion_date, action taken to
    action_taken, remarks to remarks; any other header keeps its
    stripped, lower-cased name.  The row keeps its length and order. *)
Theorem normalize_columns_renames (hs : list string) :
  List.length (normalize_columns hs) = List.length hs
  /\ forall i h,
       nth_error hs i = Some h ->
       exists out,
         nth_error (normalize_columns hs) i = Some out
         /\ (lower (strip h) = "sr.no." -> out = "sr_no")
         /\ (lower (strip h) = "d.o.r" -> out = "date_of_receipt")
         /\ (lower (strip h) = "completion date" -> out = "completion_date")
         /\ (lower (strip h) = "action taken" -> out = "action_taken")
         /\ (lower (strip h) = "remarks" -> out = "remarks")
         /\ (~ In (lower (strip h))
                 ["sr.no."; "d.o.r"; "completion date"; "action taken"; "remarks"] ->
             out = lower (strip h)).
Proof.
  split.
  - unfold normalize_columns, standardize. now rewrite !length_map.
  - intros i h Hi. rewrite normalize_columns_nth, Hi. simpl.
    eexists. split; [reflexivity|].
    repeat split; try (intros ->; reflexivity).
    intros Hout. unfold rename, rename_table. cbn [dict_get].
    repeat match goal with
           | |- context [String.eqb ?k ?n] =>
               destruct (String.eqb_spec k n) as [E|_];
               [exfalso; apply Hout; rewrite <- E; simpl; tauto|]
           end.
    reflexivity.
Qed.

Lemma normalize_columns_renames_witness :
  nth_error (normalize_columns (columns sample)) 0 = Some "sr_no"
  /\ nth_error (normalize_columns (columns sample)) 5 = Some "priority".
Proof.
  destruct (proj2 (normalize_columns_renames (columns sample)) 0 "Sr.No." eq_refl)
    as (o0 & E0 & H0 & _).
  destruct (proj2 (normalize_columns_renames (columns sample)) 5 "Priority" eq_refl)
    as (o5 & E5 & _ & _ & _ & _ & _ & H5).
  rewrite E0, E5, (H0 eq_refl), H5; [split; reflexivity|].
  vm_compute. intuition discriminate.
Defined.

(** C2 as worded: the specification's table sends sr.no. to
    sequence_no, the script's sends it to sr_no. *)
Lemma normalize_columns_not_sequence_no :
  normalize_columns ["Sr.No."] = ["sr_no"]
  /\ spec_normalize_columns ["Sr.No."] = ["sequence_no"]
  /\ normalize_columns ["Sr.No."] <> spec_normalize_columns ["Sr.No."].
Proof. repeat split. vm_compute. discriminate. Qed.

Lemma rename_table_cases (n : string) :
  dict_get rename_table n = None
  \/ In (rename rename_table n)
       ["sr_no"; "date_of_receipt"; "completion_date"; "action_taken"; "remarks"].
Proof.
  unfold rename, rename_table. cbn [dict_get].
  repeat match goal with
         | |- context [String.eqb ?k n] =>
             destruct (String.eqb k n); [right; simpl; tauto|]
         end.
  now left.
Qed.

Lemma rename_settled (n : string) :
  lower (strip n) = n ->
  lower (strip (rename rename_table n)) = rename rename_table n
  /\ rename rename_table (rename rename_table n) = rename rename_table n.
Proof.
  intros Hn. destruct (rename_table_cases n) as [E|Ht].
  - unfold rename. rewrite E. split; [exact Hn | now rewrite E].
  - simpl in Ht.
    repeat (destruct Ht as [<-|Ht]; [split; reflexivity|]).
    contradiction.
Qed.

(** C8.  Normalizing a header row that is already normalized gives the
    same row back. *)
Theorem normalize_columns_idempotent (hs : list string) :
  normalize_columns (normalize_columns hs) = normalize_columns hs.
Proof.
  unfold normalize_columns, standardize. rewrite !map_map.
  apply map_ext. intros h.
  destruct (rename_settled (lower (strip h)) (standardize_settled h)) as [E1 E2].
  now rewrite E1, E2.
Qed.

End SchemaFacts.

(* ================================================================= *)
(** ** Properties of the frame operations *)

Section FrameFacts.

Lemma positions_absent (k : string) (ls : list string) (i : nat) :
  ~ In k ls -> positions k ls i = [].
Proof.
  revert i. induction ls as [|l ls IH]; intros i H; simpl; [reflexivity|].
  destruct (String.eqb_spec l k) as [->|_].
  - exfalso. apply H. now left.
  - apply IH. intros H'. apply H. now right.
Qed.

Lemma positions_present (k : string) (ls : list string) (i : nat) :
  existsb (fun l => String.eqb l k) ls = true <-> positions k ls i <> [].
Proof.
  revert i. induction ls as [|l ls IH]; intros i; simpl.
  - split; [discriminate | congruence].
  - destruct (String.eqb l k); simpl; [|apply IH].
    split; [discriminate | reflexivity].
Qed.

Lemma has_column_In (df : DataFrame) (k : string) :
  has_column df k = true <-> In k (columns df).
Proof.
  unfold has_column. rewrite existsb_exists. split.
  - intros (l & Hl & E). apply String.eqb_eq in E. now subst.
  - intros H. exists k. split; [exact H | apply String.eqb_refl].
Qed.

Lemma carries_In (k : string) (ls : list string) :
  existsb (fun l => String.eqb l k) ls = true <-> In k ls.
Proof. exact (has_column_In (mkFrame ls []) k). Qed.

Lemma positions_some_In (k : string) (ls : list string) (i : nat) :
  positions k ls i <> [] -> In k ls.
Proof. intros H. now apply carries_In, (positions_present k ls i). Qed.

Lemma positions_app (k : string) (l1 l2 : list string) (i : nat) :
  positions k (l1 ++ l2) i
  = (positions k l1 i ++ positions k l2 (i + List.length l1))%list.
Proof.
  revert i. induction l1 as [|l l1 IH]; intros i; simpl.
  - now rewrite Nat.add_0_r.
  - rewrite IH, Nat.add_succ_r. simpl. now destruct (String.eqb l k).
Qed.

Lemma positions_nth (k : string) (ls : list string) (i j : nat) :
  In j (positions k ls i) -> i <= j /\ nth_error ls (j - i) = Some k.
Proof.
  revert i. induction ls as [|l ls IH]; intros i; simpl; [tauto|].
  destruct (String.eqb_spec l k) as [->|_].
  - intros [<-|H].
    + rewrite Nat.sub_diag. auto.
    + apply IH in H as (Hle & Hn).
      replace (j - i) with (S (j - S i)) by lia. split; [lia | exact Hn].
  - intros H. apply IH in H as (Hle & Hn).
    replace (j - i) with (S (j - S i)) by lia. split; [lia | exact Hn].
Qed.

Lemma position_label (k : string) (ls : list string) (j : nat) :
  positions k ls 0 = [j] -> nth_error ls j = Some k.
Proof.
  intros H. destruct (positions_nth k ls 0 j) as (_ & Hn).
  - rewrite H. now left.
  - now rewrite Nat.sub_0_r in Hn.
Qed.

Lemma setitem_labels_carries (key k : string) (ls : list string) :
  k <> key ->
  existsb (fun l => String.eqb l k) (setitem_labels key ls)
  = existsb (fun l => String.eqb l k) ls.
Proof.
  intros Hk. unfold setitem_labels.
  destruct (existsb (fun l => String.eqb l key) ls); [reflexivity|].
  rewrite existsb_app. simpl.
  destruct (String.eqb_spec key k); [congruence|].
  now rewrite !orb_false_r.
Qed.

Lemma setitem_labels_positions (key k : string) (ls : list string) (i : nat) :
  k <> key -> positions k (setitem_labels key ls) i = positions k ls i.
Proof.
  intros Hk. unfold setitem_labels.
  destruct (existsb (fun l => String.eqb l key) ls); [reflexivity|].
  rewrite positions_app. simpl.
  destruct (String.eqb_spec key k); [congruence|]. apply app_nil_r.
Qed.

Lemma setitem_labels_In (key k : string) (ls : list string) :
  In k (setitem_labels key ls) <-> k = key \/ In k ls.
Proof.
  unfold setitem_labels.
  destruct (existsb (fun l => String.eqb l key) ls) eqn:E.
  - apply carries_In in E. split; [auto|]. now intros [->|H].
  - rewrite in_app_iff. simpl. intuition.
Qed.

Lemma setitem_labels_own (key : string) (ls : list string) :
  (occurrences key (setitem_labels key ls) <=? 1)%nat
  = (occurrences key ls <=? 1)%nat.
Proof.
  unfold setitem_labels, occurrences.
  destruct (existsb (fun l => String.eqb l key) ls) eqn:E; [reflexivity|].
  rewrite positions_app.
  assert (H : positions key ls 0 = []).
  { destruct (positions key ls 0) eqn:P; [reflexivity|].
    assert (existsb (fun l => String.eqb l key) ls = true); [|congruence].
    apply (positions_present key ls 0). congruence. }
  rewrite H. simpl. now rewrite String.eqb_refl.
Qed.

Lemma distinct_NoDup (ls : list string) : distinct ls = true <-> NoDup ls.
Proof.
  induction ls as [|l ls IH]; simpl.
  - split; [constructor | reflexivity].
  - rewrite andb_true_iff, negb_true_iff, IH. split.
    + intros [H1 H2]. constructor; [|exact H2].
      intros Hin. apply carries_In in Hin. congruence.
    + intros H. inversion H as [|? ? Hn Hd]; subst. split; [|exact Hd].
      destruct (existsb (fun x => String.eqb x l) ls) eqn:E; [|reflexivity].
      apply carries_In in E. contradiction.
Qed.

Lemma setitem_labels_NoDup (key : string) (ls : list string) :
  NoDup (setitem_labels key ls) <-> NoDup ls.
Proof.
  unfold setitem_labels.
  destruct (existsb (fun l => String.eqb l key) ls) eqn:E; [tauto|].
  assert (Hn : ~ In key ls).
  { intros Hin. apply carries_In in Hin. congruence. }
  split.
  - intros H. now apply NoDup_app_remove_r in H.
  - intros H. apply NoDup_app; auto.
    + repeat constructor. intros [].
    + intros x Hx [<-|[]]. contradiction.
Qed.

Lemma NoDup_positions (k : string) (ls : list string) (i : nat) :
  NoDup ls -> List.length (positions k ls i) <= 1.
Proof.
  intros H. revert i. induction H as [|l ls Hn Hd IH]; intros i; simpl; [lia|].
  destruct (String.eqb_spec l k) as [->|_]; [|apply IH].
  rewrite (positions_absent k ls (S i) Hn). simpl. lia.
Qed.

Lemma NoDup_position (k : string) (ls : list string) :
  NoDup ls -> In k ls -> exists j, positions k ls 0 = [j].
Proof.
  intros Hd Hin. pose proof (NoDup_positions k ls 0 Hd) as Hle.
  apply carries_In, (positions_present k ls 0) in Hin.
  destruct (positions k ls 0) as [|j [|]]; simpl in Hle; try lia;
    [congruence | eauto].
Qed.

Lemma nth_nil_cell (j : nat) : nth j (@nil cell) NaN = NaN.
Proof. now destruct j. Qed.

Lemma nth_tl_cell (j : nat) (row : list cell) :
  nth j (tl row) NaN = nth (S j) row NaN.
Proof. destruct row; simpl; [apply nth_nil_cell | reflexivity]. Qed.


Lemma overwrite_nth (key : string) (v : cell) (ls : list string)
      (row : list cell) (j : nat) (l : string) :
  nth_error ls j = Some l ->
  nth j (overwrite key v ls row) NaN
  = if String.eqb l key then v else nth j row NaN.
Proof.
  revert row j. induction ls as [|x ls IH]; intros row [|j]; simpl;
    try discriminate.
  - intros [= ->]. now destruct row.
  - intros H. rewrite (IH _ _ H). now rewrite nth_tl_cell.
Qed.

Lemma fit_length (n : nat) (row : list cell) : List.length (fit n row) = n.
Proof.
  unfold fit. rewrite length_firstn, length_app, repeat_length. lia.
Qed.

Lemma fit_nth (n : nat) (row : list cell) (j : nat) :
  j < n -> nth j (fit n row) NaN = nth j row NaN.
Proof.
  intros Hj. unfold fit. rewrite nth_firstn.
  destruct (j <? n)%nat eqn:E; [|apply Nat.ltb_ge in E; lia].
  destruct (Nat.lt_ge_cases j (List.length row)) as [H|H].
  - now rewrite app_nth1.
  - rewrite app_nth2 by lia. rewrite (nth_overflow row) by lia.
    destruct (Nat.lt_ge_cases (j - List.length row) n) as [H'|H'].
    + now rewrite nth_repeat_lt.
    + apply nth_overflow. now rewrite repeat_length.
Qed.


(** One entry of a row after [df[key] = values]. *)
Lemma setitem_row_nth (key : string) (ls : list string) (v : cell)
      (row : list cell) (j : nat) (l : string) :
  nth_error (setitem_labels key ls) j = Some l ->
  nth j (setitem_row key ls v row) NaN
  = if String.eqb l key then v else nth j row NaN.
Proof.
  unfold setitem_row, setitem_labels.
  destruct (existsb (fun x => String.eqb x key) ls) eqn:E.
  - apply overwrite_nth.
  - intros H. destruct (Nat.lt_ge_cases j (List.length ls)) as [Hj|Hj].
    + rewrite nth_error_app1 in H by exact Hj.
      rewrite app_nth1 by (now rewrite fit_length).
      rewrite fit_nth by exact Hj.
      destruct (String.eqb_spec l key) as [->|_]; [|reflexivity].
      apply nth_error_In, carries_In in H. congruence.
    + rewrite nth_error_app2 in H by exact Hj.
      rewrite app_nth2 by (now rewrite fit_length). rewrite fit_length.
      destruct (j - List.length ls) as [|[|d]]; simpl in *; try discriminate.
      injection H as <-. now rewrite String.eqb_refl.
Qed.

Lemma setitem_labels_nth (key : string) (ls : list string) (j : nat)
      (l : string) :
  nth_error (setitem_labels key ls) j = Some l -> l <> key ->
  nth_error ls j = Some l.
Proof.
  unfold setitem_labels.
  destruct (existsb (fun x => String.eqb x key) ls); [auto|].
  intros H Hl. destruct (Nat.lt_ge_cases j (List.length ls)) as [Hj|Hj].
  - now rewrite nth_error_app1 in H.
  - rewrite nth_error_app2 in H by exact Hj.
    destruct (j - List.length ls) as [|[|d]]; simpl in *; try discriminate.
    congruence.
Qed.

Lemma combine_map_map {A B C} (f : A -> B) (g : A -> C) (l : list A) :
  combine (map f l) (map g l) = map (fun x => (f x, g x)) l.
Proof. induction l; simpl; congruence. Qed.

Lemma combine_map_r {A B} (g : A -> B) (l : list A) :
  combine l (map g l) = map (fun x => (x, g x)) l.
Proof. induction l; simpl; congruence. Qed.

Lemma setitem_map (df : DataFrame) (key : string) (g : list cell -> cell) :
  setitem df key (map g (rows df))
  = mkFrame (setitem_labels key (columns df))
            (map (fun row => setitem_row key (columns df) (g row) row)
                 (rows df)).
Proof. unfold setitem. now rewrite combine_map_r, map_map. Qed.

Lemma repeat_as_map {A B} (b : B) (l : list A) :
  repeat b (List.length l) = map (fun _ => b) l.
Proof. induction l; simpl; congruence. Qed.

Lemma map_nonempty {A B} (f : A -> B) (l : list A) : map f l = [] <-> l = [].
Proof. destruct l; simpl; split; congruence. Qed.

End FrameFacts.
(* ================================================================= *)
(** ** Properties of the classification *)

Section ClassificationFacts.

Lemma eq_scalar_str_methods (s : list cell) (v : string) :
  eq_scalar (str_method lower (str_method strip s)) v = map (text_is v) s.
Proof.
  unfold eq_scalar, str_method. rewrite !map_map.
  apply map_ext. now intros [].
Qed.

(** The frame after the two assignments, row by row. *)
Lemma assigned_frame (L : list string) (rs : list (list cell))
      (s : list cell -> string) (f : list cell -> bool) :
  let df1 := setitem (mkFrame L rs) "status" (map Str (map s rs)) in
  let df2 := setitem df1 "is_tatkal" (map Bool (map f rs)) in
  df1 = mkFrame (setitem_labels "status" L)
                (map (fun row => setitem_row "status" L (Str (s row)) row) rs)
  /\ columns df2 = assigned_labels L
  /\ with_assigned df2 (map s rs) (map f rs)
     = map (fun row =>
              mkRow (setitem_row "is_tatkal" (setitem_labels "status" L)
                                 (Bool (f row))
                                 (setitem_row "status" L (Str (s row)) row))
                    (s row) (f row)) rs.
Proof.
  intros df1 df2.
  assert (E1 : df1 = mkFrame (setitem_labels "status" L)
                 (map (fun row => setitem_row "status" L (Str (s row)) row) rs)).
  { subst df1. rewrite map_map.
    exact (setitem_map (mkFrame L rs) "status" (fun row => Str (s row))). }
  split; [exact E1|]. subst df2. rewrite E1. unfold setitem, with_assigned.
  cbn [columns rows]. split; [reflexivity|].
  rewrite !map_map, !combine_map_map, !map_map, combine_map_map, map_map.
  reflexivity.
Qed.

(** How [classify] ends, read off the normalized header. *)
Lemma classify_outcome (fetched : DataFrame) (page : list element) :
  let L := normalize_columns (columns fetched) in
  let df := mkFrame L (rows fetched) in
  classify fetched page
  = match positions "remarks" L 0 with
    | [] => (Raise (KeyError "remarks"), page)
    | [jr] =>
        if has_column df "priority" then
          match positions "priority" L 0 with
          | [jp] =>
              if object_dtype (column_at jp df)
              then (Return (mkDataset (assigned_labels L)
                              (map (classify_row L jr (Some jp))
                                   (rows fetched))), page)
              else (Raise AttributeError, page)
          | _ => (Raise AttributeError, page)
          end
        else (Return (mkDataset (assigned_labels L)
                        (map (classify_row L jr None) (rows fetched))),
              (page ++ [PriorityNotFound])%list)
    | _ => (Raise ValueError, page)
    end.
Proof.
  intros L df. unfold classify, bind, lift, classify_status, getitem.
  fold L. fold df. cbn [columns df].
  destruct (positions "remarks" L 0) as [|jr [|]]; try reflexivity.
  set (s := fun row : list cell => status_of (nth jr row NaN)).
  assert (Es : map status_of (column_at jr df) = map s (rows fetched))
    by (unfold column_at; cbn [rows df]; now rewrite map_map).
  rewrite Es. clear Es.
  assert (Hpr : "priority" <> "status") by discriminate.
  unfold classify_urgency, getitem, has_column.
  destruct (assigned_frame L (rows fetched) s (fun _ => false))
    as (E1 & _ & _).
  cbv zeta in E1. fold df in E1. rewrite E1. cbn [columns rows df].
  rewrite (setitem_labels_carries "status" "priority" L Hpr),
    (setitem_labels_positions "status" "priority" L 0 Hpr).
  destruct (existsb (fun l => String.eqb l "priority") L).
  - destruct (positions "priority" L 0) as [|jp [|]] eqn:Hp; try reflexivity.
    assert (E2 : column_at jp
                   (mkFrame (setitem_labels "status" L)
                      (map (fun row => setitem_row "status" L (Str (s row)) row)
                           (rows fetched)))
                 = column_at jp df).
    { unfold column_at. cbn [rows df]. rewrite map_map. apply map_ext.
      intros row.
      rewrite (setitem_row_nth "status" L _ row jp "priority"); [reflexivity|].
      apply position_label.
      now rewrite (setitem_labels_positions "status" "priority" L 0 Hpr). }
    rewrite E2. destruct (object_dtype (column_at jp df)); [|reflexivity].
    unfold ret. rewrite eq_scalar_str_methods.
    assert (Ef : map (text_is "tatkal") (column_at jp df)
                 = map (fun row => text_is "tatkal" (nth jp row NaN))
                       (rows fetched))
      by (unfold column_at; cbn [rows df]; now rewrite map_map).
    rewrite Ef. clear Ef.
    destruct (assigned_frame L (rows fetched) s
                (fun row => text_is "tatkal" (nth jp row NaN)))
      as (E1' & E3 & E4).
    cbv zeta in E1', E3, E4. rewrite E1' in E3, E4. rewrite E3, E4. reflexivity.
  - unfold bind, draw, ret. rewrite length_map, repeat_as_map.
    destruct (assigned_frame L (rows fetched) s (fun _ => false))
      as (E1' & E3 & E4).
    cbv zeta in E1', E3, E4. rewrite E1' in E3, E4. rewrite E3, E4. reflexivity.
Qed.

Lemma assigned_labels_positions (k : string) (L : list string) (i : nat) :
  k <> "status" -> k <> "is_tatkal" ->
  positions k (assigned_labels L) i = positions k L i.
Proof.
  intros H1 H2. unfold assigned_labels.
  now rewrite !setitem_labels_positions.
Qed.

Lemma assigned_labels_In (k : string) (L : list string) :
  In k (assigned_labels L) <-> k = "is_tatkal" \/ k = "status" \/ In k L.
Proof. unfold assigned_labels. now rewrite !setitem_labels_In. Qed.

(** One entry of a classified row, by the label of its column. *)
Lemma classified_cell (L : list string) (jr : nat) (jp : option nat)
      (row : list cell) (j : nat) (l : string) :
  nth_error (assigned_labels L) j = Some l ->
  nth j (cells (classify_row L jr jp row)) NaN
  = if String.eqb l "is_tatkal" then Bool (flag_of jp row)
    else if String.eqb l "status" then Str (status_of (nth jr row NaN))
         else nth j row NaN.
Proof.
  intros H. unfold classify_row, assigned_labels in *. cbn [cells].
  rewrite (setitem_row_nth _ _ _ _ _ _ H).
  destruct (String.eqb_spec l "is_tatkal") as [|Hl]; [reflexivity|].
  apply setitem_labels_nth in H; [|exact Hl].
  now rewrite (setitem_row_nth _ _ _ _ _ _ H).
Qed.

Lemma classified_cell_kept (L : list string) (jr : nat) (jp : option nat)
      (row : list cell) (k : string) (j : nat) :
  k <> "status" -> k <> "is_tatkal" ->
  positions k L 0 = [j] ->
  nth j (cells (classify_row L jr jp row)) NaN = nth j row NaN.
Proof.
  intros H1 H2 Hj.
  rewrite (classified_cell L jr jp row j k).
  - destruct (String.eqb_spec k "is_tatkal"); [contradiction|].
    destruct (String.eqb_spec k "status"); [contradiction | reflexivity].
  - apply position_label. now rewrite assigned_labels_positions.
Qed.

(** What [classify] returns, when it returns. *)
Lemma classify_records (fetched : DataFrame) (page page' : list element)
      (ds : Dataset) :
  classify fetched page = (Return ds, page') ->
  let L := normalize_columns (columns fetched) in
  positions "remarks" L 0 = [remarks_at L]
  /\ match priority_at L with
     | Some j => positions "priority" L 0 = [j]
     | None => ~ In "priority" L
     end
  /\ ds = mkDataset (assigned_labels L)
                    (map (classify_row L (remarks_at L) (priority_at L))
                         (rows fetched)).
Proof.
  intros H L. rewrite classify_outcome in H. fold L in H.
  unfold remarks_at, priority_at.
  destruct (positions "remarks" L 0) as [|jr [|]]; try discriminate.
  destruct (has_column (mkFrame L (rows fetched)) "priority") eqn:Hc.
  - destruct (positions "priority" L 0) as [|jp [|]]; try discriminate.
    destruct (object_dtype _); [|discriminate].
    injection H as <- _. auto.
  - assert (Hno : ~ In "priority" L).
    { intros Hin. apply (has_column_In (mkFrame L (rows fetched))) in Hin.
      congruence. }
    rewrite (positions_absent _ _ 0 Hno). injection H as <- _. auto.
Qed.

Lemma status_of_kinds (x : cell) :
  (status_of x = "Completed"
   <-> (exists t, x = Str t /\ all_space t = false)
       \/ (exists z, x = Int z) \/ (exists b, x = Bool b))
  /\ (status_of x = "Pending"
      <-> x = NaN \/ exists t, x = Str t /\ all_space t = true).
Proof.
  unfold status_of. destruct x as [|t|z|b]; cbn [notna andb py_str].
  - split; split; try discriminate; auto.
    intros [(t & [=] & _)|[(z & [=])|(b & [=])]].
  - rewrite strip_eqb_blank. destruct (all_space t) eqn:A; cbn [negb].
    + split; split; try discriminate; eauto.
      intros [(t' & [= <-] & A')|[(z & [=])|(b & [=])]]. congruence.
    + split; split; try discriminate; eauto.
      intros [[=]|(t' & [= <-] & A')]. congruence.
  - change (NilZero.string_of_int (Z.to_int z)) with (py_str (Int z)).
    rewrite strip_eqb_blank, number_text_not_blank. cbn [negb].
    split; split; try discriminate; eauto.
    intros [[=]|(t' & [=] & _)].
  - rewrite strip_eqb_blank. destruct b; cbn [all_space]; simpl;
      (split; split; try discriminate; eauto;
       intros [[=]|(t' & [=] & _)]).
Qed.

(** C3.  In a classified dataset the [remarks] column sits at one
    position, and for every record: status is Completed exactly when the
    remarks entry is present and not blank, that is a text holding a
    character that is not white space, or a number or a boolean; status is
    Pending exactly when the entry is missing or a text made of white
    space only. *)
Theorem status_iff_remarks (fetched : DataFrame) (page page' : list element)
        (ds : Dataset) :
  classify fetched page = (Return ds, page') ->
  exists j,
    positions "remarks" (labels ds) 0 = [j]
    /\ forall r,
        In r (records ds) ->
        (status r = "Completed"
         <-> (exists t, nth j (cells r) NaN = Str t /\ all_space t = false)
             \/ (exists z, nth j (cells r) NaN = Int z)
             \/ (exists b, nth j (cells r) NaN = Bool b))
        /\ (status r = "Pending"
            <-> nth j (cells r) NaN = NaN
                \/ exists t, nth j (cells r) NaN = Str t
                              /\ all_space t = true).
Proof.
  intros Hc. apply classify_records in Hc as (Hj & _ & ->).
  set (L := normalize_columns (columns fetched)) in *.
  exists (remarks_at L). cbn [labels records]. split.
  - rewrite assigned_labels_positions by discriminate. exact Hj.
  - intros r Hr. apply in_map_iff in Hr as (row & <- & _).
    rewrite (classified_cell_kept L _ _ row "remarks") by
      (discriminate || exact Hj).
    cbn [classify_row status]. apply status_of_kinds.
Qed.

Lemma status_iff_remarks_witness :
  classify padded_sheet [] = (Return classified_padded, [])
  /\ exists r,
      In r (records classified_padded)
      /\ nth 0 (cells r) NaN = Str "   "
      /\ status r = "Pending".
Proof.
  split; [reflexivity|].
  destruct (status_iff_remarks padded_sheet [] [] classified_padded eq_refl)
    as (j & Hj & H).
  vm_compute in Hj. injection Hj as <-.
  exists (mkRow [Str "   "; Str " Tatkal "; Str "Pending"; Bool true]
                "Pending" true).
  assert (Hin : In (mkRow [Str "   "; Str " Tatkal "; Str "Pending"; Bool true]
                          "Pending" true) (records classified_padded))
    by (simpl; tauto).
  split; [exact Hin|]. split; [reflexivity|].
  apply (H _ Hin). right. exists "   ". split; reflexivity.
Defined.

(** C5.  In a classified dataset: when the header has a [priority]
    column, it sits at one position and a record is flagged Tatkal exactly
    when its priority entry is a text that reads tatkal once trimmed and
    lower-cased, that is the word tatkal in any letter case with nothing
    but white space before and after it; when the header has no
    [priority] column, no record is flagged. *)
Theorem is_tatkal_iff_priority (fetched : DataFrame) (page page' : list element)
        (ds : Dataset) :
  classify fetched page = (Return ds, page') ->
  (In "priority" (labels ds) ->
   exists j,
     positions "priority" (labels ds) 0 = [j]
     /\ forall r,
         In r (records ds) ->
         (is_tatkal r = true
          <-> exists t, nth j (cells r) NaN = Str t /\ padded_tatkal t))
  /\ (~ In "priority" (labels ds) ->
      forall r, In r (records ds) -> is_tatkal r = false).
Proof.
  intros Hc. apply classify_records in Hc as (_ & Hp & ->).
  set (L := normalize_columns (columns fetched)) in *.
  cbn [labels records].
  assert (Hin : In "priority" (assigned_labels L) <-> In "priority" L).
  { rewrite assigned_labels_In. split; [|auto].
    intros [H|[H|H]]; [discriminate | discriminate | exact H]. }
  rewrite Hin. destruct (priority_at L) as [j|]; split.
  - intros _. exists j. split.
    + rewrite assigned_labels_positions by discriminate. exact Hp.
    + intros r Hr. apply in_map_iff in Hr as (row & <- & _).
      rewrite (classified_cell_kept L _ _ row "priority") by
        (discriminate || exact Hp).
      cbn [classify_row is_tatkal flag_of]. unfold text_is.
      destruct (nth j row NaN) as [|t| |];
        try (split; [discriminate | intros (t' & [=] & _)]).
      rewrite String.eqb_eq, tatkal_text. split.
      * intros H. now exists t.
      * intros (t' & [= <-] & H). exact H.
  - intros Hno. exfalso. apply Hno, (positions_some_In _ _ 0). congruence.
  - intros H. contradiction.
  - intros _ r Hr. apply in_map_iff in Hr as (row & <- & _). reflexivity.
Qed.

Lemma is_tatkal_iff_priority_witness :
  classify padded_sheet [] = (Return classified_padded, [])
  /\ exists r,
      In r (records classified_padded)
      /\ nth 1 (cells r) NaN = Str " Tatkal "
      /\ is_tatkal r = true.
Proof.
  split; [reflexivity|].
  assert (Hin : In "priority" (labels classified_padded)) by (simpl; tauto).
  destruct (proj1 (is_tatkal_iff_priority padded_sheet [] [] classified_padded
                     eq_refl) Hin) as (j & Hj & H).
  vm_compute in Hj. injection Hj as <-.
  exists (mkRow [Str "   "; Str " Tatkal "; Str "Pending"; Bool true]
                "Pending" true).
  assert (Hr : In (mkRow [Str "   "; Str " Tatkal "; Str "Pending"; Bool true]
                         "Pending" true) (records classified_padded))
    by (simpl; tauto).
  split; [exact Hr|]. split; [reflexivity|].
  apply (H _ Hr). exists " Tatkal ". split; [reflexivity|].
  exists " ", "Tatkal", " ". repeat split; reflexivity.
Defined.

End ClassificationFacts.
(* ================================================================= *)
(** ** Properties of the summary *)

Section SummaryFacts.

Lemma len_nonempty {A} (l : list A) : l <> [] -> (len l =? 0)%Z = false.
Proof. destruct l; [congruence|]. intros _. unfold len. simpl. lia. Qed.

Lemma overall_summary_empty (page : list element) :
  overall_summary [] page
  = (Raise ZeroDivisionError,
     (page ++ [OverallHeader; Metric TotalTasks 0 NoDelta])%list).
Proof.
  unfold overall_summary, bind, draw, percent, raise. simpl.
  now rewrite <- app_assoc.
Qed.

Lemma overall_summary_inv (df : list Row) (page page' : list element)
      (o : Overall) :
  overall_summary df page = (Return o, page') ->
  df <> []
  /\ o = mkOverall (len df) (len (completed_rows df))
                   (len df - len (completed_rows df)).
Proof.
  destruct df as [|r df]; [rewrite overall_summary_empty; discriminate|].
  intros H. split; [discriminate|].
  unfold overall_summary, bind, draw, percent, ret in H.
  rewrite (len_nonempty (r :: df)) in H by discriminate.
  now injection H as <- _.
Qed.

Lemma overall_summary_ok (df : list Row) (page : list element) :
  df <> [] ->
  exists p q,
    overall_summary df page
    = (Return (mkOverall (len df) (len (completed_rows df))
                         (len df - len (completed_rows df))),
       (page ++ [OverallHeader;
                 Metric TotalTasks (len df) NoDelta;
                 Metric CompletedTasks (len (completed_rows df)) (Percent false p);
                 Metric PendingTasks (len df - len (completed_rows df))
                        (Percent true q);
                 Rule])%list).
Proof.
  intros Hdf. unfold overall_summary, bind, draw, percent, ret.
  rewrite (len_nonempty df Hdf). do 2 eexists.
  rewrite <- !app_assoc. reflexivity.
Qed.

Lemma tatkal_summary_inv (df : list Row) (page page' : list element)
      (t : Tatkal) :
  tatkal_summary df page = (Return t, page') ->
  tatkal_df t = filter is_tatkal df
  /\ total_tatkal_tasks t = len (filter is_tatkal df)
  /\ match tatkal_counts t with
     | Some (c, p) =>
         c = len (completed_rows (filter is_tatkal df))
         /\ p = (len (filter is_tatkal df) - c)%Z
     | None => len (filter is_tatkal df) = 0%Z
     end.
Proof.
  unfold tatkal_summary, bind, draw, percent, ret, raise.
  destruct (len (filter is_tatkal df) >? 0)%Z eqn:G.
  - assert (E : (len (filter is_tatkal df) =? 0)%Z = false) by lia.
    rewrite E. intros [= <- _]. simpl. auto.
  - intros [= <- _]. simpl. repeat split. unfold len in *. lia.
Qed.

Lemma tatkal_summary_none (df : list Row) (page : list element) :
  filter is_tatkal df = [] ->
  tatkal_summary df page
  = (Return (mkTatkal [] 0 None),
     (page ++ [TatkalHeader; NoTatkalInfo; Rule])%list).
Proof.
  intros E. unfold tatkal_summary, bind, draw, ret. rewrite E. simpl.
  now rewrite <- !app_assoc.
Qed.

Lemma process_inv (fetched : DataFrame) (page page' : list element)
      (s : Summary) :
  process fetched page = (Return s, page') ->
  exists p1 p2,
    classify fetched (page ++ [DataLoaded])%list = (Return (dataset s), p1)
    /\ one_column (dataset s) "status" = true
    /\ overall_summary (records (dataset s)) p1 = (Return (overall s), p2)
    /\ one_column (dataset s) "is_tatkal" = true
    /\ tatkal_summary (records (dataset s)) p2 = (Return (tatkal s), page').
Proof.
  unfold process, bind at 1 2 3 4, draw at 1, overall_section, tatkal_section.
  destruct (classify fetched _) as [[ds|e] p1]; [|discriminate].
  destruct (one_column ds "status") eqn:G1; [|discriminate].
  destruct (overall_summary (records ds) p1) as [[o|e] p2] eqn:O; [|discriminate].
  destruct (one_column ds "is_tatkal") eqn:G2; [|discriminate].
  destruct (tatkal_summary (records ds) p2) as [[t|e] p3] eqn:T; [|discriminate].
  unfold ret. intros [= <- <-]. simpl. exists p1, p2. repeat split; auto.
Qed.

Lemma status_two_valued (fetched : DataFrame) (page page' : list element)
      (ds : Dataset) (r : Row) :
  classify fetched page = (Return ds, page') ->
  In r (records ds) ->
  status r = "Completed" \/ status r = "Pending".
Proof.
  intros Hc Hr. apply classify_records in Hc as (_ & _ & ->).
  cbn [records] in Hr. apply in_map_iff in Hr as (row & <- & _).
  cbn [classify_row status]. unfold status_of.
  destruct (_ && _); auto.
Qed.

Lemma status_partition (df : list Row) :
  (forall r, In r df -> status r = "Completed" \/ status r = "Pending") ->
  List.length (completed_rows df) + List.length (pending_rows df)
  = List.length df.
Proof.
  unfold completed_rows, pending_rows.
  induction df as [|r df IH]; intros H; [reflexivity|].
  specialize (IH (fun x Hx => H x (or_intror Hx))).
  cbn [filter].
  destruct (H r (or_introl eq_refl)) as [E|E]; rewrite E; simpl; lia.
Qed.

Lemma pending_by_subtraction (df : list Row) :
  (forall r, In r df -> status r = "Completed" \/ status r = "Pending") ->
  (len df - len (completed_rows df))%Z = len (pending_rows df).
Proof. intros H. apply status_partition in H. unfold len. lia. Qed.

(** C4.  After a run that returns: completed plus pending is the total,
    the total being the number of records, completed the number of
    records with status Completed and pending the number with status
    Pending; the Tatkal counts, which exist when there is a Tatkal
    record, add up to the Tatkal total, and that total is zero when they
    do not exist; the Tatkal subset is made of the flagged records of the
    full dataset, so every record in it is a record of the dataset. *)
Theorem counts_add_up (fetched : DataFrame) (page page' : list element)
        (s : Summary) :
  process fetched page = (Return s, page') ->
  (completed_tasks (overall s) + pending_tasks (overall s)
   = total_tasks (overall s))%Z
  /\ total_tasks (overall s) = len (records (dataset s))
  /\ completed_tasks (overall s) = len (completed_rows (records (dataset s)))
  /\ pending_tasks (overall s) = len (pending_rows (records (dataset s)))
  /\ match tatkal_counts (tatkal s) with
     | Some (completed_tatkal, pending_tatkal) =>
         (completed_tatkal + pending_tatkal = total_tatkal_tasks (tatkal s))%Z
     | None => total_tatkal_tasks (tatkal s) = 0%Z
     end
  /\ total_tatkal_tasks (tatkal s) = len (tatkal_df (tatkal s))
  /\ tatkal_df (tatkal s) = filter is_tatkal (records (dataset s))
  /\ incl (tatkal_df (tatkal s)) (records (dataset s))
  /\ (total_tatkal_tasks (tatkal s) <= total_tasks (overall s))%Z.
Proof.
  intros H. apply process_inv in H as (p1 & p2 & Hc & _ & Ho & _ & Ht).
  apply overall_summary_inv in Ho as (_ & Ho).
  apply tatkal_summary_inv in Ht as (Hdf & Htot & Hcnt).
  rewrite Ho, Htot, Hdf. cbn [total_tasks completed_tasks pending_tasks].
  pose proof (pending_by_subtraction (records (dataset s))
                (fun r => status_two_valued _ _ _ _ r Hc)) as Hp.
  pose proof (filter_length_le is_tatkal (records (dataset s))) as Hle.
  repeat split; try lia; try exact Hp.
  - destruct (tatkal_counts (tatkal s)) as [[c q]|]; [|exact Hcnt].
    destruct Hcnt as (_ & ->). lia.
  - apply incl_filter.
  - unfold len. lia.
Qed.

Lemma counts_add_up_witness :
  exists s page',
    process sample [] = (Return s, page')
    /\ total_tasks (overall s) = 2%Z
    /\ (completed_tasks (overall s) + pending_tasks (overall s)
        = total_tasks (overall s))%Z
    /\ incl (tatkal_df (tatkal s)) (records (dataset s)).
Proof.
  destruct (process sample []) as [[s|e] page'] eqn:E;
    [|vm_compute in E; discriminate].
  exists s, page'. split; [reflexivity|].
  pose proof (counts_add_up sample [] page' s E)
    as (Hsum & Htot & _ & _ & _ & _ & _ & Hincl & _).
  repeat split; auto.
  rewrite Htot. vm_compute in E. injection E as <- _. reflexivity.
Defined.

End SummaryFacts.

(* ================================================================= *)
(** ** How a run ends *)

Section RunFacts.

Lemma sheet_url_resolves :
  create_google_sheet_csv_url sheet_url
  = Some "https://docs.google.com/spreadsheets/d/1qwfADBf4R2owb9LbANpUiOZ2ZoQ9Tk9IpnPz1KAPpYQ/export?format=csv".
Proof. reflexivity. Qed.

(** The page, from how the [try] block ends. *)
Lemma main_page (fetched : DataFrame) :
  main fetched
  = (snd (try_block fetched [])
     ++ match fst (try_block fetched []) with
        | Return _ => []
        | Raise e => [ProcessingFailed; ErrorReport e]
        end)%list.
Proof.
  unfold main. rewrite sheet_url_resolves. unfold try_except.
  destruct (try_block fetched []) as [[[]|e] page]; cbn [fst snd].
  - now rewrite app_nil_r.
  - unfold bind, draw. simpl. now rewrite <- app_assoc.
Qed.

Lemma try_block_raises (fetched : DataFrame) (e : exn) (page page' : list element) :
  process fetched page = (Raise e, page') ->
  try_block fetched page = (Raise e, page').
Proof. intros H. unfold try_block, bind. now rewrite H. Qed.

Lemma main_raises (fetched : DataFrame) (e : exn) (page : list element) :
  process fetched [] = (Raise e, page) ->
  main fetched = (page ++ [ProcessingFailed; ErrorReport e])%list.
Proof.
  intros H. rewrite main_page, (try_block_raises _ _ _ _ H). reflexivity.
Qed.

Lemma display_distinct (s : Summary) (page : list element) :
  distinct (labels (dataset s)) = true ->
  display s page
  = (Return tt,
     (page ++ [VisualizationsHeader; StatusSubheader;
               StatusPie (len (completed_rows (records (dataset s))))
                         (len (pending_rows (records (dataset s))));
               TatkalSubheader;
               if (total_tatkal_tasks (tatkal s) >? 0)%Z
               then TatkalPie (len (completed_rows (tatkal_df (tatkal s))))
                              (len (pending_rows (tatkal_df (tatkal s))))
               else NoTatkalToVisualize;
               Rule; RawDataHeader;
               RawData (labels (dataset s))
                       (map cells (records (dataset s)))])%list).
Proof.
  intros H. unfold display, bind, draw. rewrite H.
  destruct (total_tatkal_tasks (tatkal s) >? 0)%Z; unfold draw;
    now rewrite <- !app_assoc.
Qed.

Lemma display_repeated (s : Summary) (page : list element) :
  distinct (labels (dataset s)) = false ->
  display s page
  = (Raise ValueError,
     (page ++ [VisualizationsHeader; StatusSubheader;
               StatusPie (len (completed_rows (records (dataset s))))
                         (len (pending_rows (records (dataset s))));
               TatkalSubheader;
               if (total_tatkal_tasks (tatkal s) >? 0)%Z
               then TatkalPie (len (completed_rows (tatkal_df (tatkal s))))
                              (len (pending_rows (tatkal_df (tatkal s))))
               else NoTatkalToVisualize;
               Rule; RawDataHeader])%list).
Proof.
  intros H. unfold display, bind, draw. rewrite H.
  destruct (total_tatkal_tasks (tatkal s) >? 0)%Z; unfold raise;
    now rewrite <- !app_assoc.
Qed.

(** The two guards of the summaries, read off the normalized header. *)
Lemma one_column_assigned (L : list string) (recs : list Row) :
  one_column (mkDataset (assigned_labels L) recs) "status"
  = (occurrences "status" L <=? 1)%nat
  /\ one_column (mkDataset (assigned_labels L) recs) "is_tatkal"
     = (occurrences "is_tatkal" L <=? 1)%nat.
Proof.
  unfold one_column, assigned_labels. cbn [labels]. split.
  - unfold occurrences at 1.
    rewrite (setitem_labels_positions "is_tatkal" "status") by discriminate.
    apply setitem_labels_own.
  - rewrite setitem_labels_own. unfold occurrences.
    now rewrite (setitem_labels_positions "status" "is_tatkal") by discriminate.
Qed.

Lemma assigned_labels_distinct (L : list string) :
  distinct (assigned_labels L) = true <-> NoDup L.
Proof.
  unfold assigned_labels.
  now rewrite distinct_NoDup, !setitem_labels_NoDup.
Qed.

(** No sheet without data rows gets through: whatever the header, the
    run raises, at the latest on the first percentage. *)
Lemma empty_dataset_never_returns (fetched : DataFrame) (page page' : list element)
      (s : Summary) :
  rows fetched = [] -> process fetched page <> (Return s, page').
Proof.
  intros Hrows H. apply process_inv in H as (p1 & p2 & Hc & _ & Ho & _).
  apply overall_summary_inv in Ho as (Hne & _).
  apply classify_records in Hc as (_ & _ & Hds).
  apply Hne. rewrite Hds. cbn [records]. now rewrite Hrows.
Qed.

(** C1.  On a sheet with a header and no data row the run does not come
    through: the total 0 is shown, the completed percentage divides by
    it, and the handler reports a [ZeroDivisionError]. *)
Theorem empty_sheet_divides_by_zero :
  process empty_sheet []
  = (Raise ZeroDivisionError,
     [DataLoaded; OverallHeader; Metric TotalTasks 0 NoDelta])
  /\ main empty_sheet
     = [DataLoaded; OverallHeader; Metric TotalTasks 0 NoDelta;
        ProcessingFailed; ErrorReport ZeroDivisionError].
Proof. split; reflexivity. Qed.

(** C9.  When the normalized header has no [remarks] column the status
    step raises [KeyError]: nothing has been drawn but the loading
    notice, no dataset and no count come out, and the handler reports the
    error. *)
Theorem missing_remarks_aborts (fetched : DataFrame) :
  ~ In "remarks" (normalize_columns (columns fetched)) ->
  (forall page,
      classify fetched page = (Raise (KeyError "remarks"), page)
      /\ process fetched page
         = (Raise (KeyError "remarks"), (page ++ [DataLoaded])%list))
  /\ main fetched
     = [DataLoaded; ProcessingFailed; ErrorReport (KeyError "remarks")].
Proof.
  intros Hno.
  assert (Hc : forall page,
             classify fetched page = (Raise (KeyError "remarks"), page)).
  { intros page. rewrite classify_outcome.
    now rewrite (positions_absent _ _ 0 Hno). }
  assert (Hp : forall page,
             process fetched page
             = (Raise (KeyError "remarks"), (page ++ [DataLoaded])%list)).
  { intros page. unfold process, bind at 1 2, draw. now rewrite Hc. }
  split; [auto|]. now rewrite (main_raises _ _ _ (Hp [])).
Qed.

Lemma missing_remarks_aborts_witness :
  ~ In "remarks" (normalize_columns (columns names_only_sheet))
  /\ main names_only_sheet
     = [DataLoaded; ProcessingFailed; ErrorReport (KeyError "remarks")].
Proof.
  assert (H : ~ In "remarks" (normalize_columns (columns names_only_sheet))).
  { vm_compute. intuition discriminate. }
  split; [exact H|].
  exact (proj2 (missing_remarks_aborts names_only_sheet H)).
Defined.

(** C6 as worded fails on a sheet that has neither column: the missing
    [remarks] column aborts the run before the priority check. *)
Lemma missing_priority_without_remarks_aborts :
  ~ In "priority" (normalize_columns (columns names_only_sheet))
  /\ process names_only_sheet [] = (Raise (KeyError "remarks"), [DataLoaded])
  /\ main names_only_sheet
     = [DataLoaded; ProcessingFailed; ErrorReport (KeyError "remarks")].
Proof.
  split; [|split; reflexivity]. vm_compute. intuition discriminate.
Qed.

Lemma filter_none {A} (f : A -> bool) (l : list A) :
  (forall x, In x l -> f x = false) -> filter f l = [].
Proof.
  induction l as [|x l IH]; intros H; simpl; [reflexivity|].
  rewrite (H x (or_introl eq_refl)). apply IH. intros y Hy. apply H. now right.
Qed.

(** C6, as the script has it.  On a sheet with at least one data row
    whose normalized header has pairwise distinct labels, [remarks] among
    them and [priority] not, the run comes through to the raw table: the
    missing column is reported on the page by a message, nothing is raised
    and no failure is reported, every record is classified with
    [is_tatkal] false, the overall counts are shown and the Tatkal summary
    and chart find no record. *)
Theorem missing_priority_degrades (fetched : DataFrame) :
  rows fetched <> [] ->
  NoDup (normalize_columns (columns fetched)) ->
  In "remarks" (normalize_columns (columns fetched)) ->
  ~ In "priority" (normalize_columns (columns fetched)) ->
  exists s p q,
    process fetched []
    = (Return s,
       [DataLoaded; PriorityNotFound; OverallHeader;
        Metric TotalTasks (total_tasks (overall s)) NoDelta;
        Metric CompletedTasks (completed_tasks (overall s)) (Percent false p);
        Metric PendingTasks (pending_tasks (overall s)) (Percent true q);
        Rule; TatkalHeader; NoTatkalInfo; Rule])
    /\ main fetched
       = [DataLoaded; PriorityNotFound; OverallHeader;
          Metric TotalTasks (total_tasks (overall s)) NoDelta;
          Metric CompletedTasks (completed_tasks (overall s)) (Percent false p);
          Metric PendingTasks (pending_tasks (overall s)) (Percent true q);
          Rule; TatkalHeader; NoTatkalInfo; Rule;
          VisualizationsHeader; StatusSubheader;
          StatusPie (len (completed_rows (records (dataset s))))
                    (len (pending_rows (records (dataset s))));
          TatkalSubheader; NoTatkalToVisualize; Rule; RawDataHeader;
          RawData (labels (dataset s)) (map cells (records (dataset s)))]
    /\ List.length (records (dataset s)) = List.length (rows fetched)
    /\ (forall r, In r (records (dataset s)) -> is_tatkal r = false)
    /\ total_tasks (overall s) = len (rows fetched)
    /\ (completed_tasks (overall s) + pending_tasks (overall s)
        = total_tasks (overall s))%Z
    /\ tatkal s = mkTatkal [] 0 None.
Proof.
  intros Hrows Hd Hrem Hno.
  set (L := normalize_columns (columns fetched)) in *.
  destruct (NoDup_position "remarks" L Hd Hrem) as (jr & Hj).
  set (recs := map (classify_row L jr None) (rows fetched)).
  set (ds := mkDataset (assigned_labels L) recs).
  assert (Hc : classify fetched [DataLoaded]
               = (Return ds, [DataLoaded; PriorityNotFound])).
  { rewrite classify_outcome. fold L. rewrite Hj.
    assert (Hh : has_column (mkFrame L (rows fetched)) "priority" = false).
    { destruct (has_column _ "priority") eqn:E; [|reflexivity].
      apply has_column_In in E. contradiction. }
    now rewrite Hh. }
  assert (Hlen : List.length recs = List.length (rows fetched))
    by apply length_map.
  assert (Hne : recs <> []) by (subst recs; now rewrite map_nonempty).
  assert (Hflag : forall r, In r recs -> is_tatkal r = false).
  { intros r Hr. apply in_map_iff in Hr as (row & <- & _). reflexivity. }
  destruct (one_column_assigned L recs) as (G1 & G2). fold ds in G1, G2.
  assert (G1' : one_column ds "status" = true).
  { rewrite G1. apply Nat.leb_le, NoDup_positions, Hd. }
  assert (G2' : one_column ds "is_tatkal" = true).
  { rewrite G2. apply Nat.leb_le, NoDup_positions, Hd. }
  destruct (overall_summary_ok recs [DataLoaded; PriorityNotFound] Hne)
    as (p & q & Ho).
  pose proof (tatkal_summary_none recs
                ([DataLoaded; PriorityNotFound]
                   ++ [OverallHeader;
                       Metric TotalTasks (len recs) NoDelta;
                       Metric CompletedTasks (len (completed_rows recs))
                              (Percent false p);
                       Metric PendingTasks (len recs - len (completed_rows recs))
                              (Percent true q);
                       Rule])%list
                (filter_none _ _ Hflag)) as Ht.
  set (s := mkSummary ds
              (mkOverall (len recs) (len (completed_rows recs))
                         (len recs - len (completed_rows recs)))
              (mkTatkal [] 0 None)).
  assert (Hp : process fetched []
               = (Return s,
                  [DataLoaded; PriorityNotFound; OverallHeader;
                   Metric TotalTasks (len recs) NoDelta;
                   Metric CompletedTasks (len (completed_rows recs))
                          (Percent false p);
                   Metric PendingTasks (len recs - len (completed_rows recs))
                          (Percent true q);
                   Rule; TatkalHeader; NoTatkalInfo; Rule])).
  { unfold process, bind at 1 2 3 4, draw at 1, overall_section,
      tatkal_section. cbn [app].
    rewrite Hc, G1', G2'. cbn [records ds]. rewrite Ho, Ht. reflexivity. }
  exists s, p, q. split; [exact Hp|].
  cbn [overall dataset tatkal records labels s ds
       total_tasks completed_tasks pending_tasks].
  split.
  - rewrite main_page. unfold try_block, bind. rewrite Hp.
    rewrite display_distinct by (now apply assigned_labels_distinct).
    reflexivity.
  - repeat split; auto.
    + unfold len. now rewrite Hlen.
    + lia.
Qed.

Lemma missing_priority_degrades_witness :
  exists s p q,
    process unprioritized_sheet []
    = (Return s,
       [DataLoaded; PriorityNotFound; OverallHeader;
        Metric TotalTasks (total_tasks (overall s)) NoDelta;
        Metric CompletedTasks (completed_tasks (overall s)) (Percent false p);
        Metric PendingTasks (pending_tasks (overall s)) (Percent true q);
        Rule; TatkalHeader; NoTatkalInfo; Rule])
    /\ total_tasks (overall s) = 2%Z
    /\ tatkal s = mkTatkal [] 0 None.
Proof.
  assert (H1 : rows unprioritized_sheet <> []) by discriminate.
  assert (H2 : NoDup (normalize_columns (columns unprioritized_sheet))).
  { apply distinct_NoDup. reflexivity. }
  assert (H3 : In "remarks" (normalize_columns (columns unprioritized_sheet))).
  { vm_compute. tauto. }
  assert (H4 : ~ In "priority" (normalize_columns (columns unprioritized_sheet))).
  { vm_compute. intuition discriminate. }
  destruct (missing_priority_degrades unprioritized_sheet H1 H2 H3 H4)
    as (s & p & q & Hp & _ & _ & _ & Htot & _ & Ht).
  exists s, p, q. repeat split; auto.
Defined.

(** C10.  On a sheet whose Priority column is there but blank in every
    row, the record with the missing priority entry gets no flag: the
    column is not a text column, [.str] raises [AttributeError] and the
    handler reports the failure. *)
Theorem blank_priority_column_raises :
  In "priority" (normalize_columns (columns blank_priority_sheet))
  /\ classify_urgency
       (mkFrame (normalize_columns (columns blank_priority_sheet))
                (rows blank_priority_sheet)) []
     = (Raise AttributeError, [])
  /\ process blank_priority_sheet [] = (Raise AttributeError, [DataLoaded])
  /\ main blank_priority_sheet
     = [DataLoaded; ProcessingFailed; ErrorReport AttributeError].
Proof. split; [|repeat split; reflexivity]. vm_compute. tauto. Qed.

(** X16.  Where the urgency step does take a missing entry: when the
    [priority] label is there once and its column is a text column (it has
    no rows or holds text in at least one record), the step returns one
    flag per record without raising or drawing anything, and the flag of
    every record whose priority entry is missing is false. *)
Lemma missing_priority_cell_not_tatkal (df : DataFrame) (j : nat)
        (page : list element) :
  positions "priority" (columns df) 0 = [j] ->
  object_dtype (column_at j df) = true ->
  exists flags,
    classify_urgency df page = (Return flags, page)
    /\ List.length flags = List.length (rows df)
    /\ forall i row,
        nth_error (rows df) i = Some row ->
        nth j row NaN = NaN ->
        nth_error flags i = Some false.
Proof.
  intros Hj Ho. exists (map (text_is "tatkal") (column_at j df)).
  split; [|split].
  - unfold classify_urgency, getitem.
    assert (Hh : has_column df "priority" = true).
    { unfold has_column. apply (positions_present _ _ 0). congruence. }
    now rewrite Hh, Hj, Ho, eq_scalar_str_methods.
  - unfold column_at. now rewrite !length_map.
  - intros i row Hi Hcell. unfold column_at.
    now rewrite map_map, nth_error_map, Hi; simpl; rewrite Hcell.
Qed.

Lemma missing_priority_cell_not_tatkal_witness :
  classify_urgency partly_prioritized_sheet []
  = (Return [false; true], [])
  /\ exists flags,
      classify_urgency partly_prioritized_sheet [] = (Return flags, [])
      /\ List.length flags = List.length (rows partly_prioritized_sheet)
      /\ forall i row,
          nth_error (rows partly_prioritized_sheet) i = Some row ->
          nth 1 row NaN = NaN ->
          nth_error flags i = Some false.
Proof.
  split; [reflexivity|].
  exact (missing_priority_cell_not_tatkal partly_prioritized_sheet 1 []
           eq_refl eq_refl).
Defined.

End RunFacts.
(* ================================================================= *)
(** ** Further properties: resolver, header, status *)

Section ResolverMore.

Lemma take_id_run (id rest : string) :
  all_id id = true -> starts_with_id rest = false ->
  take_id (id ++ rest) = id.
Proof.
  intros Hall Hrest. induction id as [|c t IH]; simpl in *.
  - destruct rest as [|c r]; simpl in *; [reflexivity | now rewrite Hrest].
  - apply andb_prop in Hall as [Hc Ht]. now rewrite Hc, IH.
Qed.

Lemma re_search_export_url (id : string) :
  id <> "" -> all_id id = true -> re_search (export_url id) = Some id.
Proof.
  intros Hne Hall. unfold export_url.
  cbn -[take_id]. unfold match_at. cbn -[take_id].
  rewrite take_id_run by (auto; reflexivity).
  destruct id; [congruence | reflexivity].
Qed.

(** X1.  The resolver leaves its own output alone: a link it returns is
    resolved to itself. *)
Theorem resolve_export_link_fixed (url out : string) :
  create_google_sheet_csv_url url = Some out ->
  create_google_sheet_csv_url out = Some out.
Proof.
  unfold create_google_sheet_csv_url.
  pose proof (re_search_spec url) as H.
  destruct (re_search url) as [id|]; [|discriminate].
  intros [= <-]. destruct H as (_ & _ & _ & Hne & Hall & _).
  now rewrite re_search_export_url.
Qed.

Lemma resolve_export_link_fixed_witness :
  create_google_sheet_csv_url
    "https://docs.google.com/spreadsheets/d/ABC123xyz/export?format=csv"
  = Some "https://docs.google.com/spreadsheets/d/ABC123xyz/export?format=csv".
Proof.
  exact (resolve_export_link_fixed
           "https://example.com/spreadsheets/d/ABC123xyz/edit" _ eq_refl).
Defined.

End ResolverMore.

Section HeaderMore.

(** X2.  Every label of a normalized header is settled: stripping it or
    lower-casing it again changes nothing. *)
Theorem normalized_label_settled (hs : list string) (l : string) :
  In l (normalize_columns hs) -> strip l = l /\ lower l = l.
Proof.
  unfold normalize_columns, standardize. rewrite map_map, in_map_iff.
  intros (h & <- & _).
  destruct (rename_table_cases (lower (strip h))) as [E|Ht].
  - unfold rename. rewrite E. split.
    + now rewrite <- lower_strip, strip_idem.
    + apply lower_idem.
  - simpl in Ht.
    repeat (destruct Ht as [<-|Ht]; [split; reflexivity|]).
    contradiction.
Qed.

Lemma normalized_label_settled_witness :
  In "date_of_receipt" (normalize_columns (columns sample))
  /\ strip "date_of_receipt" = "date_of_receipt"
  /\ lower "date_of_receipt" = "date_of_receipt".
Proof.
  assert (H : In "date_of_receipt" (normalize_columns (columns sample)))
    by (vm_compute; tauto).
  split; [exact H|].
  exact (normalized_label_settled (columns sample) "date_of_receipt" H).
Defined.

End HeaderMore.

Section StatusMore.

(** X3.  Which entries of the remarks column give Pending: a missing
    entry and a text made of white space only, nothing else; a number or a
    boolean always gives Completed. *)
Theorem pending_entries (x : cell) :
  (status_of x = "Pending"
   <-> x = NaN \/ exists t, x = Str t /\ all_space t = true)
  /\ (status_of x = "Completed"
      <-> (exists t, x = Str t /\ all_space t = false)
          \/ (exists z, x = Int z) \/ (exists b, x = Bool b)).
Proof.
  assert (Hstr : forall t, String.eqb (strip t) "" = all_space t).
  { intros t. destruct (String.eqb_spec (strip t) "") as [E|E].
    - symmetry. now apply strip_blank.
    - destruct (all_space t) eqn:A; [|reflexivity].
      exfalso. apply E. now apply strip_blank. }
  unfold status_of. destruct x as [|t|z|b]; cbn [notna andb].
  - split; split; try discriminate; auto.
    intros [(t & [=] & _)|[(z & [=])|(b & [=])]].
  - rewrite Hstr. cbn [py_str]. destruct (all_space t) eqn:A; cbn [negb].
    + split; split; try discriminate; eauto.
      intros [(t' & [= <-] & A')|[(z & [=])|(b & [=])]]. congruence.
    + split; split; try discriminate; eauto.
      intros [[=]|(t' & [= <-] & A')]. congruence.
  - rewrite Hstr, number_text_not_blank. cbn [negb].
    split; split; try discriminate; eauto.
    intros [[=]|(t' & [=] & _)].
  - rewrite Hstr. destruct b; cbn [py_str all_space]; simpl;
      (split; split; try discriminate; eauto;
       intros [[=]|(t' & [=] & _)]).
Qed.

End StatusMore.

(* ================================================================= *)
(** ** Further properties: classification row by row *)

Section RowsMore.



End RowsMore.

(* ================================================================= *)
(** ** Further properties: how the run ends *)

Section EndingsMore.

Lemma tatkal_summary_returns (df : list Row) (page : list element) :
  exists t page', tatkal_summary df page = (Return t, page').
Proof.
  unfold tatkal_summary, bind, draw, percent, ret, raise.
  destruct (len (filter is_tatkal df) >? 0)%Z eqn:G.
  - assert (E : (len (filter is_tatkal df) =? 0)%Z = false) by lia.
    rewrite E. eauto.
  - eauto.
Qed.

(** X5.  The two summaries and their divisions: the Tatkal summary never
    raises, on any dataset; the overall summary returns exactly when the
    dataset has a record, and on the empty dataset it raises
    [ZeroDivisionError] once the total 0 is drawn. *)
Theorem summary_divisions (df : list Row) (page : list element) :
  (exists t page', tatkal_summary df page = (Return t, page'))
  /\ ((exists o page', overall_summary df page = (Return o, page')) <-> df <> [])
  /\ (df = [] ->
      overall_summary df page
      = (Raise ZeroDivisionError,
         (page ++ [OverallHeader; Metric TotalTasks 0 NoDelta])%list)).
Proof.
  split; [apply tatkal_summary_returns|]. split; [split|].
  - intros (o & page' & H). now apply overall_summary_inv in H.
  - intros H. destruct (overall_summary_ok df page H) as (p & q & E). eauto.
  - intros ->. apply overall_summary_empty.
Qed.

Lemma process_classify_raises (fetched : DataFrame) (page p1 : list element)
      (e : exn) :
  classify fetched (page ++ [DataLoaded])%list = (Raise e, p1) ->
  process fetched page = (Raise e, p1).
Proof. intros H. unfold process, bind at 1 2, draw at 1. now rewrite H. Qed.



Lemma process_on_rows (fetched : DataFrame) (page p1 : list element)
      (ds : Dataset) :
  classify fetched (page ++ [DataLoaded])%list = (Return ds, p1) ->
  one_column ds "status" = true ->
  records ds <> [] ->
  (one_column ds "is_tatkal" = true ->
   exists s page', process fetched page = (Return s, page') /\ dataset s = ds)
  /\ (one_column ds "is_tatkal" = false ->
      exists page', process fetched page = (Raise ValueError, page')).
Proof.
  intros H G Hne.
  destruct (overall_summary_ok (records ds) p1 Hne) as (p & q & Ho).
  split; intros G2;
    unfold process, bind at 1 2 3 4, draw at 1, overall_section, tatkal_section;
    rewrite H, G, Ho, G2.
  - match goal with
    | |- context [tatkal_summary ?d ?pg] =>
        destruct (tatkal_summary_returns d pg) as (t & p3 & ->)
    end.
    unfold ret. eauto.
  - unfold bind, draw, raise. eauto.
Qed.

Lemma text_column (j : nat) (df : DataFrame) :
  rows df <> [] ->
  (object_dtype (column_at j df) = true
   <-> exists row t, In row (rows df) /\ nth j row NaN = Str t).
Proof.
  intros Hne. unfold object_dtype, column_at.
  destruct (map (fun r => nth j r NaN) (rows df)) eqn:E.
  - apply map_nonempty in E. contradiction.
  - rewrite <- E. rewrite existsb_exists. split.
    + intros (x & Hx & Hs). apply in_map_iff in Hx as (row & <- & Hrow).
      destruct (nth j row NaN) eqn:Hc; try discriminate. eauto.
    + intros (row & t & Hrow & Ht). exists (Str t). split; [|reflexivity].
      apply in_map_iff. eauto.
Qed.

(** When classification returns, read off the normalized header. *)
Lemma classify_returns_iff (fetched : DataFrame) (page : list element) :
  (exists ds p1, classify fetched page = (Return ds, p1))
  <-> occurrences "remarks" (normalize_columns (columns fetched)) = 1
      /\ (~ In "priority" (normalize_columns (columns fetched))
          \/ exists j,
              positions "priority" (normalize_columns (columns fetched)) 0 = [j]
              /\ object_dtype
                   (column_at j (mkFrame (normalize_columns (columns fetched))
                                         (rows fetched))) = true).
Proof.
  rewrite classify_outcome. unfold occurrences.
  set (L := normalize_columns (columns fetched)).
  set (df := mkFrame L (rows fetched)).
  destruct (positions "remarks" L 0) as [|jr [|jr' rest]].
  - split; [intros (? & ? & ?) | intros (? & _)]; discriminate.
  - destruct (has_column df "priority") eqn:Hc.
    + assert (Hin : In "priority" L) by (now apply (has_column_In df)).
      destruct (positions "priority" L 0) as [|jp [|jp' rest]].
      * split; [intros (? & ? & ?); discriminate|].
        intros (_ & [?|(? & ? & _)]); [contradiction | discriminate].
      * destruct (object_dtype (column_at jp df)) eqn:Ho.
        -- split; [|eauto]. intros _. split; [reflexivity|]. right. eauto.
        -- split; [intros (? & ? & ?); discriminate|].
           intros (_ & [?|(j & Hj & ?)]); [contradiction|].
           injection Hj as <-. congruence.
      * split; [intros (? & ? & ?); discriminate|].
        intros (_ & [?|(? & ? & _)]); [contradiction | discriminate].
    + split; [|eauto]. intros _. split; [reflexivity|]. left.
      intros Hin. apply (has_column_In df) in Hin. congruence.
  - split; [intros (? & ? & ?) | intros (? & _)]; discriminate.
Qed.


Lemma process_returns_cond (fetched : DataFrame) (page : list element) :
  (exists s page', process fetched page = (Return s, page'))
  <-> rows fetched <> []
      /\ occurrences "remarks" (normalize_columns (columns fetched)) = 1
      /\ (~ In "priority" (normalize_columns (columns fetched))
          \/ exists j,
              positions "priority" (normalize_columns (columns fetched)) 0 = [j]
              /\ exists row t, In row (rows fetched) /\ nth j row NaN = Str t)
      /\ occurrences "status" (normalize_columns (columns fetched)) <= 1
      /\ occurrences "is_tatkal" (normalize_columns (columns fetched)) <= 1.
Proof.
  set (L := normalize_columns (columns fetched)).
  set (df := mkFrame L (rows fetched)).
  split.
  - intros (s & page' & H).
    apply process_inv in H as (p1 & p2 & Hc & G1 & Ho & G2 & _).
    apply overall_summary_inv in Ho as (Hne & _).
    assert (Hret : exists ds p, classify fetched (page ++ [DataLoaded])%list
                                = (Return ds, p)) by eauto.
    apply classify_returns_iff in Hret as (Hr & Hp).
    apply classify_records in Hc as (_ & _ & Hds). fold L in Hds.
    rewrite Hds in Hne, G1, G2. cbn [records] in Hne.
    rewrite map_nonempty in Hne.
    destruct (one_column_assigned L
                (map (classify_row L (remarks_at L) (priority_at L))
                     (rows fetched))) as (E1 & E2).
    rewrite E1 in G1. rewrite E2 in G2. apply Nat.leb_le in G1, G2.
    repeat split; auto.
    destruct Hp as [Hno|(j & Hj & Ho)]; [now left|right].
    exists j. split; [exact Hj|]. now apply (text_column j df).
  - intros (Hne & Hr & Hp & G1 & G2).
    assert (Hret : exists ds p, classify fetched (page ++ [DataLoaded])%list
                                = (Return ds, p)).
    { apply classify_returns_iff. split; [exact Hr|].
      destruct Hp as [Hno|(j & Hj & Ht)]; [now left|right].
      exists j. split; [exact Hj|]. now apply (text_column j df). }
    destruct Hret as (ds & p1 & Hc).
    pose proof (classify_records _ _ _ _ Hc) as (_ & _ & Hds). fold L in Hds.
    destruct (one_column_assigned L
                (map (classify_row L (remarks_at L) (priority_at L))
                     (rows fetched))) as (E1 & E2).
    rewrite <- Hds in E1, E2.
    destruct (process_on_rows _ _ _ _ Hc) as (Hok & _).
    + rewrite E1. now apply Nat.leb_le.
    + rewrite Hds. cbn [records]. now rewrite map_nonempty.
    + destruct Hok as (s & page' & H & _); eauto.
      rewrite E2. now apply Nat.leb_le.
Qed.

Lemma process_labels (fetched : DataFrame) (page page' : list element)
      (s : Summary) :
  process fetched page = (Return s, page') ->
  labels (dataset s) = assigned_labels (normalize_columns (columns fetched)).
Proof.
  intros H. apply process_inv in H as (p1 & p2 & Hc & _).
  apply classify_records in Hc as (_ & _ & ->). reflexivity.
Qed.

(** X6.  When the [try] block runs to its end without an exception:
    exactly when the sheet has a data row, the labels of the normalized
    header are pairwise distinct, [remarks] is among them, and [priority]
    is either not among them or sits over text in at least one row. *)
Theorem try_block_returns_iff (fetched : DataFrame) (page : list element) :
  (exists page', try_block fetched page = (Return tt, page'))
  <-> rows fetched <> []
      /\ NoDup (normalize_columns (columns fetched))
      /\ In "remarks" (normalize_columns (columns fetched))
      /\ (~ In "priority" (normalize_columns (columns fetched))
          \/ exists j,
              positions "priority" (normalize_columns (columns fetched)) 0 = [j]
              /\ exists row t, In row (rows fetched) /\ nth j row NaN = Str t).
Proof.
  set (L := normalize_columns (columns fetched)).
  split.
  - intros (page' & H). unfold try_block, bind in H.
    destruct (process fetched page) as [[s|e] p1] eqn:P; [|discriminate].
    assert (Hret : exists s p, process fetched page = (Return s, p)) by eauto.
    apply process_returns_cond in Hret as (Hne & Hr & Hp & _).
    pose proof (process_labels _ _ _ _ P) as Hl. fold L in Hl.
    destruct (distinct (labels (dataset s))) eqn:D;
      [|rewrite (display_repeated s p1 D) in H; discriminate].
    rewrite Hl in D. apply assigned_labels_distinct in D.
    repeat split; auto.
    apply (positions_some_In _ _ 0). unfold occurrences in Hr. fold L in Hr.
    destruct (positions "remarks" L 0); [discriminate | congruence].
  - intros (Hne & Hd & Hr & Hp).
    assert (Hret : exists s p, process fetched page = (Return s, p)).
    { apply process_returns_cond. repeat split; auto.
      - destruct (NoDup_position "remarks" L Hd Hr) as (j & Hj).
        unfold occurrences. fold L. now rewrite Hj.
      - apply NoDup_positions, Hd.
      - apply NoDup_positions, Hd. }
    destruct Hret as (s & p1 & P). unfold try_block, bind. rewrite P.
    rewrite display_distinct; [eauto|].
    rewrite (process_labels _ _ _ _ P). now apply assigned_labels_distinct.
Qed.

(** X7.  Two headers that normalize to [remarks]: on a sheet with a data
    row the status step raises [ValueError] and nothing but the loading
    notice is drawn. *)
Theorem repeated_remarks_raises (fetched : DataFrame) (page : list element) :
  rows fetched <> [] ->
  2 <= occurrences "remarks" (normalize_columns (columns fetched)) ->
  process fetched page = (Raise ValueError, (page ++ [DataLoaded])%list).
Proof.
  intros _ H. apply process_classify_raises. rewrite classify_outcome.
  unfold occurrences in H.
  destruct (positions "remarks" (normalize_columns (columns fetched)) 0)
    as [|jr [|]]; simpl in H; try lia. reflexivity.
Qed.

Lemma repeated_remarks_raises_witness :
  process twice_remarks_sheet [] = (Raise ValueError, [DataLoaded]).
Proof.
  apply (repeated_remarks_raises twice_remarks_sheet []).
  - discriminate.
  - vm_compute. lia.
Defined.

(** X8.  With [remarks] there once, a [priority] label that is there
    twice, or once over rows none of which holds text, makes the urgency
    step raise [AttributeError]; nothing but the loading notice is drawn. *)
Theorem unusable_priority_raises (fetched : DataFrame) (page : list element) :
  occurrences "remarks" (normalize_columns (columns fetched)) = 1 ->
  (2 <= occurrences "priority" (normalize_columns (columns fetched))
   \/ exists j,
       positions "priority" (normalize_columns (columns fetched)) 0 = [j]
       /\ rows fetched <> []
       /\ forall row, In row (rows fetched) -> is_str (nth j row NaN) = false) ->
  process fetched page = (Raise AttributeError, (page ++ [DataLoaded])%list).
Proof.
  set (L := normalize_columns (columns fetched)).
  set (df := mkFrame L (rows fetched)).
  intros Hr Hp. apply process_classify_raises. rewrite classify_outcome.
  fold L df. unfold occurrences in *.
  destruct (positions "remarks" L 0) as [|jr [|]]; try discriminate.
  assert (Hh : has_column df "priority" = true).
  { unfold has_column. apply (positions_present _ _ 0). cbn [columns df].
    destruct Hp as [H|(j & -> & _)]; [|discriminate].
    destruct (positions "priority" L 0); simpl in H; [lia | discriminate]. }
  rewrite Hh. destruct Hp as [H|(j & -> & Hne & Hnum)].
  - destruct (positions "priority" L 0) as [|jp [|]]; simpl in H; try lia;
      reflexivity.
  - destruct (object_dtype (column_at j df)) eqn:Ho; [|reflexivity].
    apply (text_column j df Hne) in Ho as (row & t & Hrow & Ht).
    apply Hnum in Hrow. rewrite Ht in Hrow. discriminate.
Qed.

Lemma unusable_priority_raises_witness :
  process numeric_priority_sheet [] = (Raise AttributeError, [DataLoaded]).
Proof.
  apply (unusable_priority_raises numeric_priority_sheet []).
  - reflexivity.
  - right. exists 1. split; [reflexivity|]. split; [discriminate|].
    intros row [<-|[<-|[]]]; reflexivity.
Defined.



End EndingsMore.

(* ================================================================= *)
(** ** Further properties: the counts *)

Section CountsMore.

Lemma tatkal_summary_value (df : list Row) (page page' : list element)
      (t : Tatkal) :
  tatkal_summary df page = (Return t, page') ->
  t = mkTatkal (filter is_tatkal df) (len (filter is_tatkal df))
        (if (len (filter is_tatkal df) >? 0)%Z
         then Some (len (completed_rows (filter is_tatkal df)),
                    (len (filter is_tatkal df)
                     - len (completed_rows (filter is_tatkal df)))%Z)
         else None).
Proof.
  unfold tatkal_summary, bind, draw, percent, ret, raise.
  destruct (len (filter is_tatkal df) >? 0)%Z eqn:G.
  - assert (E : (len (filter is_tatkal df) =? 0)%Z = false) by lia.
    rewrite E. now intros [= <- _].
  - now intros [= <- _].
Qed.

Lemma filter_filter_length {A} (f g : A -> bool) (l : list A) :
  List.length (filter f (filter g l)) <= List.length (filter f l).
Proof.
  induction l as [|x l IH]; simpl; [lia|].
  destruct (g x); simpl; destruct (f x); simpl; lia.
Qed.

(** X10.  After a run that returns, every count is in range: the total
    is positive, completed and pending lie between 0 and the total, the
    Tatkal total is at most the total, and the Tatkal counts, when they
    exist, belong to a positive Tatkal total and do not exceed the overall
    completed and pending counts. *)
Theorem counts_in_range (fetched : DataFrame) (page page' : list element)
        (s : Summary) :
  process fetched page = (Return s, page') ->
  (0 < total_tasks (overall s))%Z
  /\ (0 <= completed_tasks (overall s) <= total_tasks (overall s))%Z
  /\ (0 <= pending_tasks (overall s) <= total_tasks (overall s))%Z
  /\ (0 <= total_tatkal_tasks (tatkal s) <= total_tasks (overall s))%Z
  /\ match tatkal_counts (tatkal s) with
     | Some (completed_tatkal, pending_tatkal) =>
         (0 < total_tatkal_tasks (tatkal s))%Z
         /\ (0 <= completed_tatkal <= completed_tasks (overall s))%Z
         /\ (0 <= pending_tatkal <= pending_tasks (overall s))%Z
     | None => total_tatkal_tasks (tatkal s) = 0%Z
     end.
Proof.
  intros H. apply process_inv in H as (p1 & p2 & Hc & _ & Ho & _ & Ht).
  apply overall_summary_inv in Ho as (Hne & ->).
  apply tatkal_summary_value in Ht as ->.
  set (df := records (dataset s)) in *.
  cbn [total_tasks completed_tasks pending_tasks total_tatkal_tasks tatkal_counts].
  assert (Htwo : forall r, In r df -> status r = "Completed" \/ status r = "Pending")
    by (intros r; exact (status_two_valued _ _ _ _ r Hc)).
  pose proof (pending_by_subtraction df Htwo) as Hp.
  pose proof (pending_by_subtraction (filter is_tatkal df)
                (fun r Hr => Htwo r (proj1 (proj1 (filter_In _ _ _) Hr)))) as Hpt.
  pose proof (filter_length_le is_tatkal df) as H1.
  pose proof (filter_length_le (fun r => String.eqb (status r) "Completed") df) as H2.
  pose proof (filter_filter_length (fun r => String.eqb (status r) "Completed")
                is_tatkal df) as H3.
  pose proof (filter_filter_length (fun r => String.eqb (status r) "Pending")
                is_tatkal df) as H4.
  assert (H0 : (0 < len df)%Z).
  { destruct df; [congruence|]. unfold len. simpl. lia. }
  fold (completed_rows df) in H2.
  fold (completed_rows (filter is_tatkal df)) (completed_rows df) in H3.
  fold (pending_rows (filter is_tatkal df)) (pending_rows df) in H4.
  rewrite Hp.
  assert (Hq : List.length (pending_rows df) <= List.length df)
    by apply filter_length_le.
  repeat split; try (unfold len in *; lia).
  destruct (len (filter is_tatkal df) >? 0)%Z eqn:G.
  - rewrite Hpt. repeat split; unfold len in *; lia.
  - unfold len in *. lia.
Qed.

Lemma counts_in_range_witness :
  exists s page',
    process sample [] = (Return s, page')
    /\ (0 < total_tasks (overall s))%Z
    /\ (0 <= total_tatkal_tasks (tatkal s) <= total_tasks (overall s))%Z.
Proof.
  destruct (process sample []) as [[s|e] page'] eqn:E;
    [|vm_compute in E; discriminate].
  exists s, page'. split; [reflexivity|].
  pose proof (counts_in_range sample [] page' s E) as (H1 & _ & _ & H2 & _).
  auto.
Defined.

Lemma filter_permuted {A} (f : A -> bool) (l l' : list A) :
  Permutation l l' -> Permutation (filter f l) (filter f l').
Proof.
  induction 1 as [|x l l' _ IH|x y l|l l' l'' _ IH1 _ IH2]; simpl.
  - constructor.
  - destruct (f x); [now constructor | exact IH].
  - destruct (f x), (f y); try reflexivity. constructor.
  - now transitivity (filter f l').
Qed.

Lemma len_permuted {A} (l l' : list A) : Permutation l l' -> len l = len l'.
Proof. intros H. unfold len. now rewrite (Permutation_length H). Qed.

(** X11.  The order of the data rows does not matter: when a sheet goes
    through, the same sheet with its rows in another order goes through
    with the same overall counts, the same Tatkal total and the same
    Tatkal counts; its records are the same records in another order. *)
Theorem row_order_irrelevant (f1 f2 : DataFrame) (page page1 : list element)
        (s1 : Summary) :
  columns f1 = columns f2 ->
  Permutation (rows f1) (rows f2) ->
  process f1 page = (Return s1, page1) ->
  exists s2 page2,
    process f2 page = (Return s2, page2)
    /\ overall s2 = overall s1
    /\ total_tatkal_tasks (tatkal s2) = total_tatkal_tasks (tatkal s1)
    /\ tatkal_counts (tatkal s2) = tatkal_counts (tatkal s1)
    /\ Permutation (records (dataset s1)) (records (dataset s2)).
Proof.
  intros Hcols Hperm H1.
  assert (Hret2 : exists s2 page2, process f2 page = (Return s2, page2)).
  { apply process_returns_cond.
    assert (Hret1 : exists s page', process f1 page = (Return s, page')) by eauto.
    apply process_returns_cond in Hret1 as (Hne & Hr & Hp & G1 & G2).
    rewrite <- Hcols. repeat split; auto.
    - intros E. rewrite E in Hperm. apply Permutation_sym in Hperm.
      apply Permutation_nil in Hperm. contradiction.
    - destruct Hp as [Hno|(j & Hj & row & t & Hrow & Ht)]; [now left|right].
      exists j. split; [exact Hj|]. exists row, t. split; [|exact Ht].
      eapply Permutation_in; eauto. }
  destruct Hret2 as (s2 & page2 & H2). exists s2, page2.
  split; [exact H2|].
  apply process_inv in H1 as (p1 & q1 & Hc1 & _ & Ho1 & _ & Ht1).
  apply process_inv in H2 as (p2 & q2 & Hc2 & _ & Ho2 & _ & Ht2).
  apply overall_summary_inv in Ho1 as (_ & ->).
  apply overall_summary_inv in Ho2 as (_ & ->).
  apply tatkal_summary_value in Ht1 as ->.
  apply tatkal_summary_value in Ht2 as ->.
  cbn [total_tatkal_tasks tatkal_counts].
  assert (Hrec : Permutation (records (dataset s1)) (records (dataset s2))).
  { apply classify_records in Hc1 as (_ & _ & ->).
    apply classify_records in Hc2 as (_ & _ & ->).
    cbn [records]. rewrite <- Hcols. now apply Permutation_map. }
  assert (Htk := filter_permuted is_tatkal _ _ Hrec).
  unfold completed_rows.
  rewrite <- (len_permuted _ _ Hrec), <- (len_permuted _ _ Htk).
  rewrite <- (len_permuted _ _ (filter_permuted _ _ _ Hrec)).
  rewrite <- (len_permuted _ _ (filter_permuted _ _ _ Htk)).
  auto.
Qed.

Lemma row_order_irrelevant_witness :
  exists s1 s2 page1 page2,
    process sample [] = (Return s1, page1)
    /\ process sample_swapped [] = (Return s2, page2)
    /\ overall s2 = overall s1
    /\ tatkal_counts (tatkal s2) = tatkal_counts (tatkal s1).
Proof.
  destruct (process sample []) as [[s1|e] page1] eqn:E;
    [|vm_compute in E; discriminate].
  assert (Hperm : Permutation (rows sample) (rows sample_swapped))
    by apply perm_swap.
  destruct (row_order_irrelevant sample sample_swapped [] page1 s1
              eq_refl Hperm E) as (s2 & page2 & H2 & Ho & _ & Hc & _).
  exists s1, s2, page1, page2. auto.
Defined.

End CountsMore.

(* ================================================================= *)
(** ** Further properties: the page *)

Section PageMore.

Lemma draws_ret {A} (P : element -> Prop) (a : A) : draws P (ret a).
Proof.
  split; [constructor|]. intros page. unfold ret. simpl.
  now rewrite app_nil_r.
Qed.

Lemma draws_raise {A} (P : element -> Prop) (e : exn) : draws P (@raise A e).
Proof.
  split; [constructor|]. intros page. unfold raise. simpl.
  now rewrite app_nil_r.
Qed.

Lemma draws_draw (P : element -> Prop) (e : element) : P e -> draws P (draw e).
Proof. intros H. split; [now repeat constructor | reflexivity]. Qed.

Lemma draws_bind {A B} (P : element -> Prop) (m : M A) (k : A -> M B) :
  draws P m -> (forall a, draws P (k a)) -> draws P (bind m k).
Proof.
  intros [Hm1 Hm2] Hk. unfold draws, bind.
  destruct (m []) as [[a|e] added] eqn:E0; cbn [fst snd] in *.
  - destruct (Hk a) as [Hk1 Hk2]. rewrite (Hk2 added). cbn [fst snd]. split.
    + apply Forall_app. auto.
    + intros page. rewrite Hm2, Hk2. now rewrite app_assoc.
  - split; [exact Hm1|]. intros page. now rewrite Hm2.
Qed.

Lemma draws_weaken {A} (P Q : element -> Prop) (m : M A) :
  (forall e, P e -> Q e) -> draws P m -> draws Q m.
Proof.
  intros H [H1 H2]. split; [|exact H2].
  eapply Forall_impl; eauto.
Qed.

Lemma percent_draws (P : element -> Prop) (a b : Z) : draws P (percent a b).
Proof.
  unfold percent. destruct (b =? 0)%Z; [apply draws_raise | apply draws_ret].
Qed.

Ltac step_draws :=
  repeat first
    [ apply draws_ret
    | apply percent_draws
    | apply draws_draw; simpl; auto; lia
    | apply draws_bind; [|intros] ].

Lemma overall_summary_draws (df : list Row) :
  draws summary_element (overall_summary df).
Proof. unfold overall_summary. step_draws. Qed.

Lemma tatkal_summary_draws (df : list Row) :
  draws summary_element (tatkal_summary df).
Proof.
  unfold tatkal_summary.
  destruct (len (filter is_tatkal df) >? 0)%Z eqn:G; step_draws.
Qed.

Lemma overall_section_draws (ds : Dataset) :
  draws summary_element (overall_section ds).
Proof.
  unfold overall_section. destruct (one_column ds "status").
  - apply overall_summary_draws.
  - apply draws_bind; [now apply draws_draw | intros; apply draws_raise].
Qed.

Lemma tatkal_section_draws (ds : Dataset) :
  draws summary_element (tatkal_section ds).
Proof.
  unfold tatkal_section. destruct (one_column ds "is_tatkal").
  - apply tatkal_summary_draws.
  - apply draws_bind; [now apply draws_draw | intros; apply draws_raise].
Qed.

Lemma display_draws (s : Summary) : draws display_element (display s).
Proof.
  unfold display.
  repeat (apply draws_bind; [|intros _]);
    try (apply draws_draw; exact I).
  - destruct (total_tatkal_tasks (tatkal s) >? 0)%Z;
      (apply draws_bind; [|intros _]); apply draws_draw; exact I.
  - destruct (distinct (labels (dataset s)));
      [apply draws_draw; exact I | apply draws_raise].
Qed.

Lemma classify_draws (fetched : DataFrame) :
  draws (fun e => e = PriorityNotFound) (classify fetched).
Proof.
  split.
  - rewrite classify_outcome.
    repeat match goal with
           | |- context [match ?x with _ => _ end] => destruct x
           end; simpl; repeat constructor.
  - intros page. rewrite (classify_outcome fetched page),
      (classify_outcome fetched []).
    repeat match goal with
           | |- context [match ?x with _ => _ end] => destruct x
           end; simpl; now rewrite ?app_nil_r.
Qed.

(** What follows classification: the two summaries, the charts and the
    raw table. *)
Lemma after_classify_draws (ds : Dataset) :
  draws (fun e => summary_element e \/ display_element e)
        (s <- (o <- overall_section ds ;;
               t <- tatkal_section ds ;;
               ret (mkSummary ds o t)) ;;
         display s)%page.
Proof.
  apply draws_bind.
  - eapply draws_weaken with (P := summary_element); [now left|].
    apply draws_bind; [apply overall_section_draws|]. intros o.
    apply draws_bind; [apply tatkal_section_draws|]. intros t.
    apply draws_ret.
  - intros s. eapply draws_weaken; [|apply display_draws]. now right.
Qed.

Lemma try_block_after_classify (fetched : DataFrame) (page : list element) :
  try_block fetched page
  = match classify fetched (page ++ [DataLoaded])%list with
    | (Return ds, p1) =>
        (s <- (o <- overall_section ds ;;
               t <- tatkal_section ds ;;
               ret (mkSummary ds o t)) ;;
         display s)%page p1
    | (Raise e, p1) => (Raise e, p1)
    end.
Proof.
  unfold try_block, process, bind, draw.
  destruct (classify fetched (page ++ [DataLoaded])%list) as [[ds|e] p1];
    reflexivity.
Qed.

Lemma try_block_draws (fetched : DataFrame) :
  draws body_element (try_block fetched).
Proof.
  assert (D : draws body_element
                (draw DataLoaded ;;
                 ds <- classify fetched ;;
                 s <- (o <- overall_section ds ;;
                       t <- tatkal_section ds ;;
                       ret (mkSummary ds o t)) ;;
                 display s)%page).
  { apply draws_bind; [apply draws_draw; now left|]. intros _.
    apply draws_bind.
    - eapply draws_weaken; [|apply classify_draws].
      intros e ->. right. now left.
    - intros ds. eapply draws_weaken; [|apply after_classify_draws].
      intros e [H|H]; right; right; [now left | now right]. }
  assert (E : forall page,
             try_block fetched page
             = (draw DataLoaded ;;
                ds <- classify fetched ;;
                s <- (o <- overall_section ds ;;
                      t <- tatkal_section ds ;;
                      ret (mkSummary ds o t)) ;;
                display s)%page page).
  { intros page. rewrite try_block_after_classify. unfold bind, draw.
    destruct (classify fetched (page ++ [DataLoaded])%list) as [[ds|e] p1];
      reflexivity. }
  destruct D as [D1 D2]. split.
  - now rewrite E.
  - intros page. now rewrite !E.
Qed.

Lemma body_not_handler (e : element) : body_element e -> ~ handler_element e.
Proof.
  intros [->|[->|[H|H]]] [E|[E|(x & E)]]; try discriminate;
    subst; exact H.
Qed.

(** X12.  A failure is reported exactly when the [try] block raised: the
    page holds the failure notice if and only if an exception was raised
    somewhere between the fetch and the raw table, an error report names
    the exception that was raised, and the notice of an invalid link
    never appears. *)
Theorem failure_reported (fetched : DataFrame) :
  (In ProcessingFailed (main fetched)
   <-> exists e, fst (try_block fetched []) = Raise e)
  /\ (forall e, In (ErrorReport e) (main fetched)
                <-> fst (try_block fetched []) = Raise e)
  /\ ~ In InvalidUrl (main fetched).
Proof.
  rewrite main_page.
  destruct (try_block_draws fetched) as [Hbody _].
  rewrite Forall_forall in Hbody.
  assert (Hno : forall x, handler_element x ->
                          ~ In x (snd (try_block fetched []))).
  { intros x Hx Hin. exact (body_not_handler x (Hbody x Hin) Hx). }
  destruct (fst (try_block fetched [])) as [s|e0].
  - rewrite app_nil_r. repeat split.
    + intros H. exfalso. apply (Hno ProcessingFailed); [|exact H].
      right. now left.
    + intros (e & [=]).
    + intros H. exfalso. apply (Hno (ErrorReport e)); [|exact H].
      right. right. now exists e.
    + discriminate.
    + apply Hno. now left.
  - repeat split.
    + eauto.
    + intros _. apply in_or_app. right. now left.
    + intros H. apply in_app_or in H as [H|[H|[H|[]]]].
      * exfalso. apply (Hno (ErrorReport e)); [|exact H].
        right. right. now exists e.
      * discriminate.
      * congruence.
    + intros [= ->]. apply in_or_app. right. right. now left.
    + intros H. apply in_app_or in H as [H|[H|[H|[]]]]; try discriminate.
      apply (Hno InvalidUrl); [now left | exact H].
Qed.

(** X13.  A Tatkal total of zero is never shown: a Tatkal total on the
    page is positive. *)
Theorem tatkal_total_shown_positive (fetched : DataFrame) (v : Z) (d : delta) :
  In (Metric TotalTatkal v d) (main fetched) -> (0 < v)%Z.
Proof.
  rewrite main_page. intros H. apply in_app_or in H as [H|H].
  - destruct (try_block_draws fetched) as [Hbody _].
    rewrite Forall_forall in Hbody.
    destruct (Hbody _ H) as [E|[E|[E|E]]]; try discriminate;
      [exact E | contradiction].
  - destruct (fst (try_block fetched [])); simpl in H; [contradiction|].
    destruct H as [H|[H|[]]]; discriminate.
Qed.

Lemma tatkal_total_shown_positive_witness :
  In (Metric TotalTatkal 1 NoDelta) (main sample) /\ (0 < 1)%Z.
Proof.
  assert (H : In (Metric TotalTatkal 1 NoDelta) (main sample))
    by (vm_compute; tauto).
  split; [exact H|].
  exact (tatkal_total_shown_positive sample 1 NoDelta H).
Defined.

Lemma try_block_page (fetched : DataFrame) :
  exists tail,
    snd (try_block fetched [])
    = (snd (classify fetched [DataLoaded]) ++ tail)%list
    /\ Forall (fun e => summary_element e \/ display_element e) tail.
Proof.
  rewrite try_block_after_classify. cbn [app].
  destruct (classify fetched [DataLoaded]) as [[ds|e] p1]; cbn [snd].
  - destruct (after_classify_draws ds) as [D1 D2]. rewrite D2. cbn [snd]. eauto.
  - exists []. rewrite app_nil_r. auto.
Qed.

(** X14.  The missing-priority message is on the page exactly when the
    normalized header has [remarks] once and no [priority] column,
    whether or not the run then comes through. *)
Theorem priority_notice_iff (fetched : DataFrame) :
  In PriorityNotFound (main fetched)
  <-> occurrences "remarks" (normalize_columns (columns fetched)) = 1
      /\ ~ In "priority" (normalize_columns (columns fetched)).
Proof.
  rewrite main_page.
  destruct (try_block_page fetched) as (tail & -> & Htail).
  rewrite Forall_forall in Htail.
  assert (Hrest : In PriorityNotFound
                     ((snd (classify fetched [DataLoaded]) ++ tail)
                        ++ match fst (try_block fetched []) with
                           | Return _ => []
                           | Raise e => [ProcessingFailed; ErrorReport e]
                           end)%list
                  <-> In PriorityNotFound (snd (classify fetched [DataLoaded]))).
  { rewrite !in_app_iff. split; [|tauto].
    intros [[H|H]|H]; [exact H| |].
    - apply Htail in H. destruct H as [H|H]; contradiction.
    - destruct (fst (try_block fetched [])); simpl in H; [contradiction|].
      destruct H as [H|[H|[]]]; discriminate. }
  rewrite Hrest, classify_outcome. unfold occurrences.
  set (L := normalize_columns (columns fetched)).
  destruct (positions "remarks" L 0) as [|jr [|]]; cbn [snd].
  - split; [intros [H|[]]; discriminate | intros [[=] _]].
  - destruct (has_column (mkFrame L (rows fetched)) "priority") eqn:Hc.
    + assert (Hin : In "priority" L)
        by (apply (has_column_In (mkFrame L (rows fetched))); exact Hc).
      assert (Hno : ~ In PriorityNotFound [DataLoaded])
        by (intros [H|[]]; discriminate).
      destruct (positions "priority" L 0) as [|jp [|]];
        try destruct (object_dtype _); cbn [snd]; tauto.
    + split.
      * intros _. split; [reflexivity|]. intros Hin.
        apply (has_column_In (mkFrame L (rows fetched))) in Hin. congruence.
      * intros _. simpl. tauto.
  - split; [intros [H|[]]; discriminate | intros [[=] _]].
Qed.

(** X15.  The link matters only through its shape: with a [/d/<id>]
    segment the page is the one [main] draws for the fetched sheet;
    without one the page is the invalid-link notice alone, or nothing at
    all when the link is empty. *)
Theorem run_by_link (url : string) (fetched : DataFrame) :
  (has_segment url -> run url fetched = main fetched)
  /\ (~ has_segment url ->
      run url fetched = if String.eqb url "" then [] else [InvalidUrl]).
Proof.
  unfold run, main. rewrite sheet_url_resolves.
  unfold create_google_sheet_csv_url.
  pose proof (re_search_spec url) as H.
  destruct (re_search url) as [id|] eqn:R; split.
  - intros _. destruct (String.eqb_spec url ""); [|reflexivity].
    subst url. discriminate R.
  - intros Hno. exfalso. eauto using first_id_segment.
  - intros Hseg. contradiction.
  - intros _. destruct (String.eqb url ""); reflexivity.
Qed.

Lemma run_by_link_witness :
  run "https://example.com/spreadsheets/d/ABC123xyz/edit" sample = main sample
  /\ run "https://example.com/spreadsheets/edit" sample = [InvalidUrl].
Proof.
  split.
  - apply (proj1 (run_by_link _ sample)).
    exists "https://example.com/spreadsheets", "A"%char, "BC123xyz/edit".
    split; reflexivity.
  - pose proof (re_search_spec "https://example.com/spreadsheets/edit") as H.
    vm_compute in H.
    exact (proj2 (run_by_link "https://example.com/spreadsheets/edit" sample) H).
Defined.

End PageMore.

(* ================================================================= *)
(** ** Further properties: padding and letter case *)

Section PaddingMore.

(** X17.  Headers are matched whatever their padding and letter case:
    white space added around every header, or lower-casing every header
    beforehand, gives the same normalized header. *)
Theorem header_padding_and_case_ignored (hs : list string) (a b : string) :
  all_space a = true -> all_space b = true ->
  normalize_columns (map (fun h => a ++ h ++ b) hs) = normalize_columns hs
  /\ normalize_columns (map lower hs) = normalize_columns hs.
Proof.
  intros Ha Hb. unfold normalize_columns, standardize. rewrite !map_map.
  split; apply map_ext; intros h.
  - now rewrite strip_padded.
  - now rewrite <- lower_strip, lower_idem.
Qed.

Lemma header_padding_and_case_ignored_witness :
  normalize_columns (map (fun h => " " ++ h ++ "  ") (columns sample))
  = normalize_columns (columns sample)
  /\ normalize_columns (map lower (columns sample))
     = normalize_columns (columns sample).
Proof.
  exact (header_padding_and_case_ignored (columns sample) " " "  "
           eq_refl eq_refl).
Defined.

(** X18.  Entries are read whatever their padding, and the priority
    whatever its letter case: white space added around a remarks text
    leaves its status unchanged, and white space added around the
    priority texts of a column, or lower-casing them beforehand, leaves the
    Tatkal flags unchanged. *)
Theorem entry_padding_and_case_ignored (ts : list string) (t a b : string) :
  all_space a = true -> all_space b = true ->
  status_of (Str (a ++ t ++ b)) = status_of (Str t)
  /\ eq_scalar (str_method lower
                  (str_method strip (map (fun x => Str (a ++ x ++ b)) ts)))
               "tatkal"
     = eq_scalar (str_method lower (str_method strip (map Str ts))) "tatkal"
  /\ eq_scalar (str_method lower
                  (str_method strip (map (fun x => Str (lower x)) ts)))
               "tatkal"
     = eq_scalar (str_method lower (str_method strip (map Str ts))) "tatkal".
Proof.
  intros Ha Hb. split; [|split].
  - unfold status_of. cbn [notna py_str]. now rewrite strip_padded.
  - rewrite !eq_scalar_str_methods, !map_map. apply map_ext. intros x.
    cbn [text_is]. now rewrite strip_padded.
  - rewrite !eq_scalar_str_methods, !map_map. apply map_ext. intros x.
    cbn [text_is]. now rewrite <- lower_strip, lower_idem.
Qed.

Lemma entry_padding_and_case_ignored_witness :
  status_of (Str ("  " ++ "done" ++ " ")) = status_of (Str "done")
  /\ eq_scalar (str_method lower
                  (str_method strip
                     (map (fun x => Str ("  " ++ x ++ " ")) ["Tatkal"; "Normal"])))
               "tatkal"
     = [true; false].
Proof.
  destruct (entry_padding_and_case_ignored ["Tatkal"; "Normal"] "done" "  " " "
              eq_refl eq_refl) as (H1 & H2 & _).
  split; [exact H1|]. rewrite H2. reflexivity.
Defined.

End PaddingMore.
